(** * gclient: the metrics tracer of an outbound HTTP request

    A shallow embedding of [net/gclient/gclient_tracer_metrics.go].

    The tracer is an object attached to one request.  The HTTP transport calls
    its sixteen hooks; a hook updates the open-connections gauge or the
    connect-duration histogram, may write the request's [RemoteAddr] or the
    tracer's [ConnectStartTime], and then calls the hook of the same name of
    the tracer it wraps.

    Every effect a hook performs is appended to a list of events, in the order
    the code performs it, so that counting and ordering properties can be
    read off that list.  A Go panic (a method called through a nil interface,
    a nil function value, a nil pointer) is an explicit outcome. *)

From Stdlib Require Import ZArith List String Bool Lia.
Import ListNotations.

Local Open Scope Z_scope.

(** ** Go values used by the file *)

(** A Go [error]: [None] is [nil]. *)
Inductive error_value : Type := errorString (msg : string).
Definition error : Type := option error_value.

(** [context.Context], identified by a number. *)
Inductive context_Context : Type := contextOf (id : nat).

(** [time.Duration]: nanoseconds. *)
Definition Duration : Type := Z.

(** [time.Duration.Milliseconds]: integer division by 1e6, truncated towards
    zero as Go's [/] on integers is. *)
Definition Milliseconds (d : Duration) : Z := Z.quot d 1000000.

(** A reading of the clock ([gtime.Time]), in nanoseconds. *)
Definition Time : Type := Z.

(** [textproto.MIMEHeader] is [map[string][]string]. *)
Definition MIMEHeader : Type := list (string * list string).

(** [tls.ConnectionState], reduced to three of its fields; the tracer only
    hands it on. *)
Record tls_ConnectionState : Type := {
  Version : Z;
  HandshakeComplete : bool;
  ServerName : string
}.

(** [http.Request]: the fields the tracer and the attribution read. *)
Record http_Request : Type := {
  Method : string;
  Host : string;
  RemoteAddr : string;
  ctx : context_Context
}.

(** The method [Context] of a request. *)
Definition Context (r : http_Request) : context_Context := ctx r.

Definition with_RemoteAddr (r : http_Request) (addr : string) : http_Request :=
  {| Method := Method r; Host := Host r; RemoteAddr := addr; ctx := ctx r |}.

(** ** Package [httptrace] *)

Module httptrace.

Record GotConnInfo : Type := {
  Conn : nat;
  Reused : bool;
  WasIdle : bool;
  IdleTime : Duration
}.

Record DNSStartInfo : Type := { DNSHost : string }.

Record DNSDoneInfo : Type := {
  Addrs : list string;
  Err : error;
  Coalesced : bool
}.

Record WroteRequestInfo : Type := { WroteErr : error }.

(** [httptrace.ClientTrace]: a struct of sixteen function values, each of
    which may be nil ([None]).  [F] is the effect a hook runs in. *)
Record ClientTrace (F : Type -> Type) : Type := {
  GetConn : option (string -> F unit);
  GotConn : option (GotConnInfo -> F unit);
  PutIdleConn : option (error -> F unit);
  GotFirstResponseByte : option (unit -> F unit);
  Got100Continue : option (unit -> F unit);
  Got1xxResponse : option (Z -> MIMEHeader -> F error);
  DNSStart : option (DNSStartInfo -> F unit);
  DNSDone : option (DNSDoneInfo -> F unit);
  ConnectStart : option (string -> string -> F unit);
  ConnectDone : option (string -> string -> error -> F unit);
  TLSHandshakeStart : option (unit -> F unit);
  TLSHandshakeDone : option (tls_ConnectionState -> error -> F unit);
  WroteHeaderField : option (string -> list string -> F unit);
  WroteHeaders : option (unit -> F unit);
  Wait100Continue : option (unit -> F unit);
  WroteRequest : option (WroteRequestInfo -> F unit)
}.

Arguments GetConn {F} _.
Arguments GotConn {F} _.
Arguments PutIdleConn {F} _.
Arguments GotFirstResponseByte {F} _.
Arguments Got100Continue {F} _.
Arguments Got1xxResponse {F} _.
Arguments DNSStart {F} _.
Arguments DNSDone {F} _.
Arguments ConnectStart {F} _.
Arguments ConnectDone {F} _.
Arguments TLSHandshakeStart {F} _.
Arguments TLSHandshakeDone {F} _.
Arguments WroteHeaderField {F} _.
Arguments WroteHeaders {F} _.
Arguments Wait100Continue {F} _.
Arguments WroteRequest {F} _.

End httptrace.

(** A hook of the wrapped tracer is code outside this file: only its result
    is visible here, and the fact that it was called is an event. *)
Definition Ext (B : Type) : Type := B.

(** One invocation of one of the sixteen hooks, with its arguments. *)
Inductive Call : Type :=
| CGetConn (hostPort : string)
| CGotConn (info : httptrace.GotConnInfo)
| CPutIdleConn (err : error)
| CGotFirstResponseByte
| CGot100Continue
| CGot1xxResponse (code : Z) (header : MIMEHeader)
| CDNSStart (info : httptrace.DNSStartInfo)
| CDNSDone (info : httptrace.DNSDoneInfo)
| CConnectStart (network addr : string)
| CConnectDone (network addr : string) (err : error)
| CTLSHandshakeStart
| CTLSHandshakeDone (state : tls_ConnectionState) (err : error)
| CWroteHeaderField (key : string) (value : list string)
| CWroteHeaders
| CWait100Continue
| CWroteRequest (info : httptrace.WroteRequestInfo).

(** ** The metrics side *)

(** Modelled from the spec: the constants [connectionStateActive] and
    [connectionStateIdle] are declared outside this file; the spec gives the
    gauge a "state" dimension with the two values active and idle. *)
Inductive connectionState : Type :=
| connectionStateActive
| connectionStateIdle.

(** [gmetric.AttributeMap]: the label set of a request. *)
Definition AttributeMap : Type := list (string * string).

(** Modelled from the spec: [gmetric.Option] is declared outside this file;
    the spec's output contract gives an update a label set and, for the
    gauge, the extra dimension "state". *)
Record gmetric_Option : Type := {
  Attributes : AttributeMap;
  State : option connectionState
}.

(** Instrument handles. *)
Inductive UpDownCounter : Type := upDownCounter (name : string).
Inductive Histogram : Type := histogram (name : string).

(** Modelled from the spec: the type of [metricManager] is declared outside
    this file.  It holds the two instruments this file updates, each of which
    may be missing ([None] is a nil handle), and derives a request's label
    set. *)
Record localMetricManager : Type := {
  HttpClientOpenConnections : option UpDownCounter;
  HttpClientConnectionDuration : option Histogram;
  GetMetricAttributeMap : http_Request -> AttributeMap
}.

(** Modelled from the spec: [GetMetricOptionForOpenConnectionsByMap] is
    defined outside this file; per the output contract the gauge is keyed by
    the label set and the state. *)
Definition GetMetricOptionForOpenConnectionsByMap
    (state : connectionState) (attrMap : AttributeMap) : gmetric_Option :=
  {| Attributes := attrMap; State := Some state |}.

(** Modelled from the spec: [GetMetricOptionForConnectionDuration] is defined
    outside this file; per the output contract the histogram is keyed by the
    request's label set. *)
Definition GetMetricOptionForConnectionDuration
    (m : localMetricManager) (r : http_Request) : gmetric_Option :=
  {| Attributes := GetMetricAttributeMap m r; State := None |}.

(** ** Effects *)

Inductive Event : Type :=
| EAdd (i : UpDownCounter) (c : context_Context) (delta : Z) (opt : gmetric_Option)
| ERecord (h : Histogram) (value : Z) (opt : gmetric_Option)
| ESetRemoteAddr (addr : string)
| ESetConnectStartTime (t : Time)
| EDelegate (c : Call).

(** The tracer object, as the struct declares it.  [ClientTrace] is the
    embedded pointer to the wrapped tracer, [Request] the request the pointer
    refers to, [ConnectStartTime] a pointer that is nil until it is set. *)
Record clientTracerMetrics : Type := {
  ClientTrace : option (httptrace.ClientTrace Ext);
  Request : http_Request;
  ConnectStartTime : option Time
}.

(** What a hook can read and change: the tracer object and the clock. *)
Record World : Type := {
  self : clientTracerMetrics;
  clock : Time
}.

(** The outcome of running a piece of code: [value] is [None] when it
    panicked; [final] is the world it left; [emitted] lists its effects,
    oldest first. *)
Record Result (A : Type) : Type := mkResult {
  value : option A;
  final : World;
  emitted : list Event
}.

Arguments mkResult {A} _ _ _.
Arguments value {A} _.
Arguments final {A} _.
Arguments emitted {A} _.

Definition M (A : Type) : Type := World -> Result A.

Definition ret {A : Type} (a : A) : M A :=
  fun w => mkResult (Some a) w [].

Definition bind {A B : Type} (m : M A) (f : A -> M B) : M B :=
  fun w =>
    let r := m w in
    match value r with
    | None => mkResult None (final r) (emitted r)
    | Some a =>
        let r' := f a (final r) in
        mkResult (value r') (final r') (emitted r ++ emitted r')
    end.

Definition panic {A : Type} : M A :=
  fun w => mkResult None w [].

Declare Scope go_scope.
Delimit Scope go_scope with go.
Notation "x <- c1 ;; c2" := (bind c1 (fun x => c2))
  (at level 100, c1 at next level, right associativity) : go_scope.
Notation "c1 ;; c2" := (bind c1 (fun _ => c2))
  (at level 100, right associativity) : go_scope.
Local Open Scope go_scope.

(** Read the receiver [ct]. *)
Definition this : M clientTracerMetrics :=
  fun w => mkResult (Some (self w)) w [].

(** [gtime.Now()]. *)
Definition gtime_Now : M Time :=
  fun w => mkResult (Some (clock w)) w [].

(** [ct.Request.RemoteAddr = addr]. *)
Definition set_RemoteAddr (addr : string) : M unit :=
  fun w =>
    let c := self w in
    mkResult (Some tt)
      {| self := {| ClientTrace := ClientTrace c;
                    Request := with_RemoteAddr (Request c) addr;
                    ConnectStartTime := ConnectStartTime c |};
         clock := clock w |}
      [ESetRemoteAddr addr].

(** [ct.ConnectStartTime = t], for [t] a non-nil pointer. *)
Definition set_ConnectStartTime (t : Time) : M unit :=
  fun w =>
    let c := self w in
    mkResult (Some tt)
      {| self := {| ClientTrace := ClientTrace c;
                    Request := Request c;
                    ConnectStartTime := Some t |};
         clock := clock w |}
      [ESetConnectStartTime t].

(** [i.Add(ctx, delta, opt)] on an [UpDownCounter] interface value: a call
    through a nil interface panics. *)
Definition UpDownCounter_Add (i : option UpDownCounter)
    (c : context_Context) (delta : Z) (opt : gmetric_Option) : M unit :=
  fun w =>
    match i with
    | None => mkResult None w []
    | Some g => mkResult (Some tt) w [EAdd g c delta opt]
    end.

(** [h.Record(value, opt)] on a [Histogram] interface value. *)
Definition Histogram_Record (h : option Histogram)
    (v : Z) (opt : gmetric_Option) : M unit :=
  fun w =>
    match h with
    | None => mkResult None w []
    | Some i => mkResult (Some tt) w [ERecord i v opt]
    end.

(** Modelled from the spec: [gtime.Time.Sub] is defined outside this file;
    it gives the time elapsed between two readings.  What it does when the
    reading it is handed is a nil pointer is not described: [sub_nil] stands
    for it, [None] for a fault and [Some d] for a returned duration. *)
Definition gtime_Sub (sub_nil : option Duration)
    (t : Time) (u : option Time) : M Duration :=
  fun w =>
    match u with
    | Some u0 => mkResult (Some (t - u0)) w []
    | None => mkResult sub_nil w []
    end.

(** [ct.ClientTrace.Hook(args)]: [ct.ClientTrace] is a pointer that may be
    nil and [Hook] a function value that may be nil; either nil panics.
    [sel] picks the hook and applies it to the arguments. *)
Definition delegate {B : Type}
    (sel : httptrace.ClientTrace Ext -> option (Ext B)) (c : Call) : M B :=
  fun w =>
    match ClientTrace (self w) with
    | None => mkResult None w []
    | Some d =>
        match sel d with
        | None => mkResult None w []
        | Some b => mkResult (Some b) w [EDelegate c]
        end
    end.

(** A function value that may be nil, applied to one, two or three
    arguments. *)
Definition app1 {A B : Type} (f : option (A -> B)) (a : A) : option B :=
  option_map (fun g => g a) f.
Definition app2 {A1 A2 B : Type} (f : option (A1 -> A2 -> B))
    (a1 : A1) (a2 : A2) : option B :=
  option_map (fun g => g a1 a2) f.
Definition app3 {A1 A2 A3 B : Type} (f : option (A1 -> A2 -> A3 -> B))
    (a1 : A1) (a2 : A2) (a3 : A3) : option B :=
  option_map (fun g => g a1 a2 a3) f.

(** ** The tracer's methods *)

Section Tracer.

(** The package-level [metricManager]. *)
Variable metricManager : localMetricManager.

(** The behaviour of [gtime.Time.Sub] on a nil reading. *)
Variable sub_nil : option Duration.

Definition GetConn (hostPort : string) : M unit :=
  delegate (fun d => app1 (httptrace.GetConn d) hostPort) (CGetConn hostPort).

Definition GotConn (info : httptrace.GotConnInfo) : M unit :=
  (if negb (httptrace.Reused info) then
     ct <- this ;;
     let ctx := Context (Request ct) in
     let attrMap := GetMetricAttributeMap metricManager (Request ct) in
     UpDownCounter_Add (HttpClientOpenConnections metricManager)
       ctx 1
       (GetMetricOptionForOpenConnectionsByMap connectionStateActive attrMap) ;;
     if httptrace.WasIdle info then
       UpDownCounter_Add (HttpClientOpenConnections metricManager)
         ctx (-1)
         (GetMetricOptionForOpenConnectionsByMap connectionStateIdle attrMap)
     else ret tt
   else ret tt) ;;
  delegate (fun d => app1 (httptrace.GotConn d) info) (CGotConn info).

Definition PutIdleConn (err : error) : M unit :=
  ct <- this ;;
  let ctx := Context (Request ct) in
  let attrMap := GetMetricAttributeMap metricManager (Request ct) in
  UpDownCounter_Add (HttpClientOpenConnections metricManager)
    ctx (-1)
    (GetMetricOptionForOpenConnectionsByMap connectionStateActive attrMap) ;;
  (match err with
   | None =>
       UpDownCounter_Add (HttpClientOpenConnections metricManager)
         ctx 1
         (GetMetricOptionForOpenConnectionsByMap connectionStateIdle attrMap)
   | Some _ => ret tt
   end) ;;
  delegate (fun d => app1 (httptrace.PutIdleConn d) err) (CPutIdleConn err).

Definition GotFirstResponseByte (_ : unit) : M unit :=
  delegate (fun d => app1 (httptrace.GotFirstResponseByte d) tt)
    CGotFirstResponseByte.

Definition Got100Continue (_ : unit) : M unit :=
  delegate (fun d => app1 (httptrace.Got100Continue d) tt) CGot100Continue.

Definition Got1xxResponse (code : Z) (header : MIMEHeader) : M error :=
  delegate (fun d => app2 (httptrace.Got1xxResponse d) code header)
    (CGot1xxResponse code header).

Definition DNSStart (info : httptrace.DNSStartInfo) : M unit :=
  delegate (fun d => app1 (httptrace.DNSStart d) info) (CDNSStart info).

Definition DNSDone (info : httptrace.DNSDoneInfo) : M unit :=
  delegate (fun d => app1 (httptrace.DNSDone d) info) (CDNSDone info).

Definition ConnectStart (network addr : string) : M unit :=
  ct <- this ;;
  (if String.eqb (RemoteAddr (Request ct)) EmptyString then
     set_RemoteAddr addr
   else ret tt) ;;
  now <- gtime_Now ;;
  set_ConnectStartTime now ;;
  delegate (fun d => app2 (httptrace.ConnectStart d) network addr)
    (CConnectStart network addr).

Definition ConnectDone (network addr : string) (err : error) : M unit :=
  ct <- this ;;
  now <- gtime_Now ;;
  d <- gtime_Sub sub_nil now (ConnectStartTime ct) ;;
  Histogram_Record (HttpClientConnectionDuration metricManager)
    (Milliseconds d)
    (GetMetricOptionForConnectionDuration metricManager (Request ct)) ;;
  delegate (fun d => app3 (httptrace.ConnectDone d) network addr err)
    (CConnectDone network addr err).

Definition TLSHandshakeStart (_ : unit) : M unit :=
  delegate (fun d => app1 (httptrace.TLSHandshakeStart d) tt)
    CTLSHandshakeStart.

Definition TLSHandshakeDone (state : tls_ConnectionState) (err : error)
    : M unit :=
  delegate (fun d => app2 (httptrace.TLSHandshakeDone d) state err)
    (CTLSHandshakeDone state err).

Definition WroteHeaderField (key : string) (value : list string) : M unit :=
  delegate (fun d => app2 (httptrace.WroteHeaderField d) key value)
    (CWroteHeaderField key value).

Definition WroteHeaders (_ : unit) : M unit :=
  delegate (fun d => app1 (httptrace.WroteHeaders d) tt) CWroteHeaders.

Definition Wait100Continue (_ : unit) : M unit :=
  delegate (fun d => app1 (httptrace.Wait100Continue d) tt) CWait100Continue.

Definition WroteRequest (info : httptrace.WroteRequestInfo) : M unit :=
  delegate (fun d => app1 (httptrace.WroteRequest d) info)
    (CWroteRequest info).

(** [newClientTracerMetrics]: the object [c] it allocates and the set of
    entry points it returns, every one of them a method of [c]. *)
Definition newClientTracerMetrics (request : http_Request)
    (baseClientTracer : option (httptrace.ClientTrace Ext))
    : clientTracerMetrics * httptrace.ClientTrace M :=
  let c := {| ClientTrace := baseClientTracer;
              Request := request;
              ConnectStartTime := None |} in
  (c,
   {| httptrace.GetConn := Some GetConn;
      httptrace.GotConn := Some GotConn;
      httptrace.PutIdleConn := Some PutIdleConn;
      httptrace.GotFirstResponseByte := Some GotFirstResponseByte;
      httptrace.Got100Continue := Some Got100Continue;
      httptrace.Got1xxResponse := Some Got1xxResponse;
      httptrace.DNSStart := Some DNSStart;
      httptrace.DNSDone := Some DNSDone;
      httptrace.ConnectStart := Some ConnectStart;
      httptrace.ConnectDone := Some ConnectDone;
      httptrace.TLSHandshakeStart := Some TLSHandshakeStart;
      httptrace.TLSHandshakeDone := Some TLSHandshakeDone;
      httptrace.WroteHeaderField := Some WroteHeaderField;
      httptrace.WroteHeaders := Some WroteHeaders;
      httptrace.Wait100Continue := Some Wait100Continue;
      httptrace.WroteRequest := Some WroteRequest |}).

End Tracer.

(** ** The transport's side *)

(** The transport firing one event on a callback set.  It skips an entry
    that is nil.  The result is [Some e] for [Got1xxResponse], whose error the
    transport looks at, and [None] for the hooks that return nothing. *)
Definition void (h : option (M unit)) : M (option error) :=
  match h with
  | None => ret None
  | Some m => m ;; ret None
  end.

Definition fire (t : httptrace.ClientTrace M) (c : Call) : M (option error) :=
  match c with
  | CGetConn hostPort => void (app1 (httptrace.GetConn t) hostPort)
  | CGotConn info => void (app1 (httptrace.GotConn t) info)
  | CPutIdleConn err => void (app1 (httptrace.PutIdleConn t) err)
  | CGotFirstResponseByte => void (app1 (httptrace.GotFirstResponseByte t) tt)
  | CGot100Continue => void (app1 (httptrace.Got100Continue t) tt)
  | CGot1xxResponse code header =>
      match app2 (httptrace.Got1xxResponse t) code header with
      | None => ret None
      | Some m => e <- m ;; ret (Some e)
      end
  | CDNSStart info => void (app1 (httptrace.DNSStart t) info)
  | CDNSDone info => void (app1 (httptrace.DNSDone t) info)
  | CConnectStart network addr =>
      void (app2 (httptrace.ConnectStart t) network addr)
  | CConnectDone network addr err =>
      void (app3 (httptrace.ConnectDone t) network addr err)
  | CTLSHandshakeStart => void (app1 (httptrace.TLSHandshakeStart t) tt)
  | CTLSHandshakeDone state err =>
      void (app2 (httptrace.TLSHandshakeDone t) state err)
  | CWroteHeaderField key v => void (app2 (httptrace.WroteHeaderField t) key v)
  | CWroteHeaders => void (app1 (httptrace.WroteHeaders t) tt)
  | CWait100Continue => void (app1 (httptrace.Wait100Continue t) tt)
  | CWroteRequest info => void (app1 (httptrace.WroteRequest t) info)
  end.

(** The clock reaching [t]. *)
Definition at_time (t : Time) : M unit :=
  fun w => mkResult (Some tt) {| self := self w; clock := t |} [].

(** A run of the transport: the calls it makes, each with the time at which
    it makes it.  A panic ends the run. *)
Fixpoint run_calls (t : httptrace.ClientTrace M) (cs : list (Time * Call))
    : M unit :=
  match cs with
  | [] => ret tt
  | (now, c) :: rest => at_time now ;; fire t c ;; run_calls t rest
  end.

(** A function value that is not nil. *)
Definition is_set {A : Type} (f : option A) : bool :=
  match f with Some _ => true | None => false end.

(** Whether the wrapped tracer has the hook that [c] names. *)
Definition has_hook (d : httptrace.ClientTrace Ext) (c : Call) : bool :=
  match c with
  | CGetConn _ => is_set (httptrace.GetConn d)
  | CGotConn _ => is_set (httptrace.GotConn d)
  | CPutIdleConn _ => is_set (httptrace.PutIdleConn d)
  | CGotFirstResponseByte =>
      is_set (httptrace.GotFirstResponseByte d)
  | CGot100Continue => is_set (httptrace.Got100Continue d)
  | CGot1xxResponse _ _ => is_set (httptrace.Got1xxResponse d)
  | CDNSStart _ => is_set (httptrace.DNSStart d)
  | CDNSDone _ => is_set (httptrace.DNSDone d)
  | CConnectStart _ _ => is_set (httptrace.ConnectStart d)
  | CConnectDone _ _ _ => is_set (httptrace.ConnectDone d)
  | CTLSHandshakeStart => is_set (httptrace.TLSHandshakeStart d)
  | CTLSHandshakeDone _ _ =>
      is_set (httptrace.TLSHandshakeDone d)
  | CWroteHeaderField _ _ =>
      is_set (httptrace.WroteHeaderField d)
  | CWroteHeaders => is_set (httptrace.WroteHeaders d)
  | CWait100Continue => is_set (httptrace.Wait100Continue d)
  | CWroteRequest _ => is_set (httptrace.WroteRequest d)
  end.

(** ** Reading a list of events *)

Definition is_delegate (e : Event) : bool :=
  match e with EDelegate _ => true | _ => false end.

Definition is_metric (e : Event) : bool :=
  match e with EAdd _ _ _ _ | ERecord _ _ _ => true | _ => false end.

(** The updates of the two instruments, in order. *)
Definition metrics (es : list Event) : list Event := filter is_metric es.

(** The calls made to the wrapped tracer, in order. *)
Definition delegated (es : list Event) : list Call :=
  flat_map (fun e => match e with EDelegate c => [c] | _ => [] end) es.

Definition connectionState_eqb (a b : connectionState) : bool :=
  match a, b with
  | connectionStateActive, connectionStateActive => true
  | connectionStateIdle, connectionStateIdle => true
  | _, _ => false
  end.

(** What one event adds to the gauge for state [s]. *)
Definition gauge_delta (s : connectionState) (e : Event) : Z :=
  match e with
  | EAdd _ _ delta opt =>
      match State opt with
      | Some s' => if connectionState_eqb s s' then delta else 0
      | None => 0
      end
  | _ => 0
  end.

(** The net change of the gauge for state [s] over a list of events. *)
Definition net (s : connectionState) (es : list Event) : Z :=
  fold_right (fun e acc => gauge_delta s e + acc) 0 es.

(** Which instrument a call makes the tracer touch. *)
Definition uses_gauge (c : Call) : bool :=
  match c with
  | CGotConn info => negb (httptrace.Reused info)
  | CPutIdleConn _ => true
  | _ => false
  end.

Definition uses_histogram (c : Call) : bool :=
  match c with CConnectDone _ _ _ => true | _ => false end.

(** The effects of the tracer itself: everything but the calls to the
    wrapped tracer. *)
Definition bookkeeping (es : list Event) : list Event :=
  filter (fun e => negb (is_delegate e)) es.

(** What call [c] needs is at hand in world [w]: the gauge for a call that
    updates it; for [ConnectDone] the histogram and an elapsed time, which
    there is when a timestamp is stored or when [gtime.Time.Sub] answers a
    nil one ([sub_nil] is set). *)
Definition ready (m : localMetricManager) (sub_nil : option Duration)
    (w : World) (c : Call) : bool :=
  (negb (uses_gauge c) || is_set (HttpClientOpenConnections m)) &&
  (negb (uses_histogram c) ||
   (is_set (HttpClientConnectionDuration m) &&
    (is_set (ConnectStartTime (self w)) || is_set sub_nil))).

(** A callback that degrades to a no-op: it does not panic and updates no
    instrument. *)
Definition degrades_to_no_op (t : httptrace.ClientTrace M) (c : Call)
    (w : World) : Prop :=
  value (fire t c w) <> None /\ metrics (emitted (fire t c w)) = [].

(** ** The connect phase *)

Definition is_ConnectStart (c : Call) : bool :=
  match c with CConnectStart _ _ => true | _ => false end.

(** The time of the last [ConnectStart] of a run, or [init] when the run has
    none. *)
Fixpoint last_start (cs : list (Time * Call)) (init : option Time)
    : option Time :=
  match cs with
  | [] => init
  | (now, c) :: rest =>
      last_start rest (if is_ConnectStart c then Some now else init)
  end.

(** The first address that is not empty among [init] and the addresses of
    the [ConnectStart] calls of a run. *)
Fixpoint first_addr (cs : list (Time * Call)) (init : string) : string :=
  match cs with
  | [] => init
  | (_, CConnectStart _ addr) :: rest =>
      first_addr rest (if String.eqb init EmptyString then addr else init)
  | _ :: rest => first_addr rest init
  end.

(** The number of [GotConn] calls of a run that report a connection as not
    reused, and the number of its [PutIdleConn] calls. *)
Fixpoint count_not_reused (cs : list (Time * Call)) : Z :=
  match cs with
  | [] => 0
  | (_, CGotConn info) :: rest =>
      (if httptrace.Reused info then 0 else 1) + count_not_reused rest
  | _ :: rest => count_not_reused rest
  end.

Fixpoint count_put_idle (cs : list (Time * Call)) : Z :=
  match cs with
  | [] => 0
  | (_, CPutIdleConn _) :: rest => 1 + count_put_idle rest
  | _ :: rest => count_put_idle rest
  end.

(** ** The life of one connection *)

(** A connection taken from the idle pool. *)
Definition from_idle (info : httptrace.GotConnInfo) : bool :=
  httptrace.WasIdle info.

(** A connection taken from the idle pool and reported as not reused. *)
Definition from_idle_not_reused (info : httptrace.GotConnInfo) : bool :=
  httptrace.WasIdle info && negb (httptrace.Reused info).

(** A newly dialled connection. *)
Definition brand_new (info : httptrace.GotConnInfo) : bool :=
  negb (httptrace.Reused info) && negb (httptrace.WasIdle info).

(** The calls of one connection's life from the point where it is handed to a
    request: [GotConn], then [PutIdleConn], then [GotConn] again, and so on.
    [got] says what the next [GotConn] must report; after the first one it
    must satisfy [reuse].  A [PutIdleConn] with an error ends the life. *)
Fixpoint life_from (reuse got : httptrace.GotConnInfo -> bool)
    (cs : list (Time * Call)) : bool :=
  match cs with
  | [] => true
  | (_, CGotConn info) :: rest =>
      got info &&
      match rest with
      | [] => true
      | (_, CPutIdleConn None) :: rest' => life_from reuse reuse rest'
      | (_, CPutIdleConn (Some _)) :: rest' =>
          match rest' with [] => true | _ :: _ => false end
      | _ :: _ => false
      end
  | _ :: _ => false
  end.

(** What the active gauge should show for the connection after a run: 1
    when the last call handed it to a request, 0 otherwise. *)
Fixpoint held (cs : list (Time * Call)) : Z :=
  match cs with
  | [] => 0
  | (_, c) :: rest =>
      match rest with
      | [] => match c with CGotConn _ => 1 | _ => 0 end
      | _ :: _ => held rest
      end
  end.

(** Whether a run consists of [GotConn] and [PutIdleConn] calls only. *)
Definition conn_call (c : Call) : bool :=
  match c with CGotConn _ | CPutIdleConn _ => true | _ => false end.

(** ** Counting over a run *)

(** Whether the tracer object wraps a tracer that has the hook [c] names. *)
Definition wraps_hook (w : World) (c : Call) : bool :=
  match ClientTrace (self w) with
  | Some d => has_hook d c
  | None => false
  end.

(** The [GotConn] calls of a run that report a connection as taken from the
    idle pool and not reused. *)
Fixpoint count_from_idle (cs : list (Time * Call)) : Z :=
  match cs with
  | [] => 0
  | (_, CGotConn info) :: rest =>
      (if from_idle_not_reused info then 1 else 0) + count_from_idle rest
  | _ :: rest => count_from_idle rest
  end.

(** The [GotConn] calls of a run that report a newly dialled connection. *)
Fixpoint count_brand_new (cs : list (Time * Call)) : Z :=
  match cs with
  | [] => 0
  | (_, CGotConn info) :: rest =>
      (if brand_new info then 1 else 0) + count_brand_new rest
  | _ :: rest => count_brand_new rest
  end.

(** The [PutIdleConn] calls of a run with a nil error, and those with an
    error. *)
Fixpoint count_put_ok (cs : list (Time * Call)) : Z :=
  match cs with
  | [] => 0
  | (_, CPutIdleConn None) :: rest => 1 + count_put_ok rest
  | _ :: rest => count_put_ok rest
  end.

Fixpoint count_put_failed (cs : list (Time * Call)) : Z :=
  match cs with
  | [] => 0
  | (_, CPutIdleConn (Some _)) :: rest => 1 + count_put_failed rest
  | _ :: rest => count_put_failed rest
  end.

(** Whether a run has a [ConnectStart]. *)
Definition has_ConnectStart (cs : list (Time * Call)) : bool :=
  existsb (fun p => is_ConnectStart (snd p)) cs.

(** The label set and the context an instrument update carries. *)
Definition labels_of (e : Event) : option AttributeMap :=
  match e with
  | EAdd _ _ _ opt | ERecord _ _ opt => Some (Attributes opt)
  | _ => None
  end.

Definition context_of (e : Event) : option context_Context :=
  match e with
  | EAdd _ c _ _ => Some c
  | _ => None
  end.

(** An update made under label set [l] and, for the gauge, context [c]. *)
Definition attributed (l : AttributeMap) (c : context_Context) (e : Event)
    : Prop :=
  match labels_of e with Some l' => l' = l | None => True end /\
  match context_of e with Some c' => c' = c | None => True end.

(** ** Concrete inputs *)

Local Open Scope string_scope.

(** A wrapped tracer with every hook set and doing nothing. *)
Definition quiet : httptrace.ClientTrace Ext :=
  {| httptrace.GetConn := Some (fun _ => tt);
     httptrace.GotConn := Some (fun _ => tt);
     httptrace.PutIdleConn := Some (fun _ => tt);
     httptrace.GotFirstResponseByte := Some (fun _ => tt);
     httptrace.Got100Continue := Some (fun _ => tt);
     httptrace.Got1xxResponse := Some (fun _ _ => None);
     httptrace.DNSStart := Some (fun _ => tt);
     httptrace.DNSDone := Some (fun _ => tt);
     httptrace.ConnectStart := Some (fun _ _ => tt);
     httptrace.ConnectDone := Some (fun _ _ _ => tt);
     httptrace.TLSHandshakeStart := Some (fun _ => tt);
     httptrace.TLSHandshakeDone := Some (fun _ _ => tt);
     httptrace.WroteHeaderField := Some (fun _ _ => tt);
     httptrace.WroteHeaders := Some (fun _ => tt);
     httptrace.Wait100Continue := Some (fun _ => tt);
     httptrace.WroteRequest := Some (fun _ => tt) |}.

(** The error a wrapped tracer may answer an informational response with. *)
Definition refusal : error_value := errorString "unexpected 1xx".

(** A wrapped tracer that refuses every informational response but 100. *)
Definition strict : httptrace.ClientTrace Ext :=
  {| httptrace.GetConn := Some (fun _ => tt);
     httptrace.GotConn := Some (fun _ => tt);
     httptrace.PutIdleConn := Some (fun _ => tt);
     httptrace.GotFirstResponseByte := Some (fun _ => tt);
     httptrace.Got100Continue := Some (fun _ => tt);
     httptrace.Got1xxResponse :=
       Some (fun code _ => if Z.eqb code 100 then None else Some refusal);
     httptrace.DNSStart := Some (fun _ => tt);
     httptrace.DNSDone := Some (fun _ => tt);
     httptrace.ConnectStart := Some (fun _ _ => tt);
     httptrace.ConnectDone := Some (fun _ _ _ => tt);
     httptrace.TLSHandshakeStart := Some (fun _ => tt);
     httptrace.TLSHandshakeDone := Some (fun _ _ => tt);
     httptrace.WroteHeaderField := Some (fun _ _ => tt);
     httptrace.WroteHeaders := Some (fun _ => tt);
     httptrace.Wait100Continue := Some (fun _ => tt);
     httptrace.WroteRequest := Some (fun _ => tt) |}.

Definition request0 : http_Request :=
  {| Method := "GET"; Host := "example.org:443"; RemoteAddr := "";
     ctx := contextOf 7 |}.

Definition labels (r : http_Request) : AttributeMap :=
  [("http.request.method", Method r); ("server.address", Host r)].

Definition openConnections : UpDownCounter :=
  upDownCounter "http.client.open_connections".

Definition connectionDuration : Histogram :=
  histogram "http.client.connection_duration".

(** A manager with both instruments. *)
Definition manager : localMetricManager :=
  {| HttpClientOpenConnections := Some openConnections;
     HttpClientConnectionDuration := Some connectionDuration;
     GetMetricAttributeMap := labels |}.

(** A manager whose gauge handle is nil. *)
Definition manager_no_gauge : localMetricManager :=
  {| HttpClientOpenConnections := None;
     HttpClientConnectionDuration := Some connectionDuration;
     GetMetricAttributeMap := labels |}.

(** A manager whose histogram handle is nil. *)
Definition manager_no_histogram : localMetricManager :=
  {| HttpClientOpenConnections := Some openConnections;
     HttpClientConnectionDuration := None;
     GetMetricAttributeMap := labels |}.

(** The world right after the tracer was built around [quiet] for
    [request0]. *)
Definition world0 : World :=
  {| self := fst (newClientTracerMetrics manager None request0 (Some quiet));
     clock := 0 |}.

(** The same around [strict]. *)
Definition world_strict : World :=
  {| self := fst (newClientTracerMetrics manager None request0 (Some strict));
     clock := 0 |}.

(** A world in which a connect started at time 1000000. *)
Definition world_dialling : World :=
  {| self := {| ClientTrace := Some quiet;
                Request := request0;
                ConnectStartTime := Some 1000000 |};
     clock := 43000000 |}.

(** The entry points the constructor returns with [manager]. *)
Definition tracer0 : httptrace.ClientTrace M :=
  snd (newClientTracerMetrics manager None request0 (Some quiet)).

Definition info_new : httptrace.GotConnInfo :=
  {| httptrace.Conn := 1; httptrace.Reused := false;
     httptrace.WasIdle := false; httptrace.IdleTime := 0 |}.

Definition info_idle_not_reused : httptrace.GotConnInfo :=
  {| httptrace.Conn := 1; httptrace.Reused := false;
     httptrace.WasIdle := true; httptrace.IdleTime := 5000000 |}.

Definition info_reused_idle : httptrace.GotConnInfo :=
  {| httptrace.Conn := 1; httptrace.Reused := true;
     httptrace.WasIdle := true; httptrace.IdleTime := 5000000 |}.

Definition info_reused : httptrace.GotConnInfo :=
  {| httptrace.Conn := 1; httptrace.Reused := true;
     httptrace.WasIdle := false; httptrace.IdleTime := 0 |}.

(** One connection: dialled, returned to the idle pool, taken from it again
    as a reused connection, returned again. *)
Definition reused_life : list (Time * Call) :=
  [(0, CGotConn info_new); (10, CPutIdleConn None);
   (20, CGotConn info_reused_idle); (30, CPutIdleConn None)].

(** Two dials racing: a second [ConnectStart] before any [ConnectDone]. *)
Definition racing_dials : list (Time * Call) :=
  [(0, CConnectStart "tcp" "[2001:db8::1]:443");
   (5000000, CConnectStart "tcp" "1.2.3.4:443")].

(** Two requests over two connections: one dialled, idled, taken from the
    pool as not reused and lost on return; one dialled with a dial that took
    three milliseconds. *)
Definition busy_run : list (Time * Call) :=
  [(0, CGetConn "example.org:443");
   (1000000, CConnectStart "tcp" "1.2.3.4:443");
   (4000000, CConnectDone "tcp" "1.2.3.4:443" None);
   (4000000, CGotConn info_new);
   (9000000, CPutIdleConn None);
   (10000000, CGotConn info_idle_not_reused);
   (12000000, CPutIdleConn (Some refusal));
   (13000000, CGotConn info_new);
   (14000000, CGotConn info_reused)].

(** A connection handed out three times, reported as not reused each time,
    and lost on its last return. *)
Definition fresh_life : list (Time * Call) :=
  [(0, CGotConn info_new); (10, CPutIdleConn None);
   (20, CGotConn info_idle_not_reused); (30, CPutIdleConn None);
   (40, CGotConn info_idle_not_reused); (50, CPutIdleConn (Some refusal))].

(** A world whose tracer wraps nothing. *)
Definition world_bare : World :=
  {| self := fst (newClientTracerMetrics manager None request0 None);
     clock := 0 |}.

Local Close Scope string_scope.

(** * Properties *)

(** ** The monad and the primitives *)

Lemma bind_value_none {A B : Type} (m : M A) (f : A -> M B) (w : World) :
  value (m w) = None ->
  bind m f w = mkResult None (final (m w)) (emitted (m w)).
Proof.
  intros H. unfold bind. rewrite H. reflexivity.
Qed.

Lemma bind_value_some {A B : Type} (m : M A) (f : A -> M B) (w : World) (a : A) :
  value (m w) = Some a ->
  bind m f w =
    mkResult (value (f a (final (m w)))) (final (f a (final (m w))))
      (emitted (m w) ++ emitted (f a (final (m w)))).
Proof.
  intros H. unfold bind. rewrite H. reflexivity.
Qed.

Lemma delegate_set {B : Type}
    (sel : httptrace.ClientTrace Ext -> option (Ext B)) (c : Call)
    (w : World) (d : httptrace.ClientTrace Ext) (b : B) :
  ClientTrace (self w) = Some d ->
  sel d = Some b ->
  delegate sel c w = mkResult (Some b) w [EDelegate c].
Proof.
  intros Hd Hs. unfold delegate. rewrite Hd, Hs. reflexivity.
Qed.

(** Whatever the wrapped tracer is, calling it changes nothing in the world
    and emits at most the one event of the call. *)
Lemma delegate_shape {B : Type}
    (sel : httptrace.ClientTrace Ext -> option (Ext B)) (c : Call) (w : World) :
  final (delegate sel c w) = w /\
  emitted (delegate sel c w) =
    match value (delegate sel c w) with
    | Some _ => [EDelegate c]
    | None => []
    end.
Proof.
  unfold delegate.
  destruct (ClientTrace (self w)) as [d|]; [|split; reflexivity].
  destruct (sel d); split; reflexivity.
Qed.

(** Firing an entry that returns nothing is running it. *)
Lemma void_emitted (m : M unit) (w : World) :
  emitted (void (Some m) w) = emitted (m w).
Proof.
  unfold void, bind, ret. destruct (value (m w)); cbn;
    rewrite ?app_nil_r; reflexivity.
Qed.

Lemma void_final (m : M unit) (w : World) :
  final (void (Some m) w) = final (m w).
Proof.
  unfold void, bind, ret. destruct (value (m w)); reflexivity.
Qed.

Lemma void_value (m : M unit) (w : World) :
  value (void (Some m) w) = option_map (fun _ => None) (value (m w)).
Proof.
  unfold void, bind, ret. destruct (value (m w)); reflexivity.
Qed.

(** Unfold a hook down to its primitives. *)
Ltac unfold_hook :=
  unfold GetConn, GotConn, PutIdleConn, GotFirstResponseByte, Got100Continue,
    Got1xxResponse, DNSStart, DNSDone, ConnectStart, ConnectDone,
    TLSHandshakeStart, TLSHandshakeDone, WroteHeaderField, WroteHeaders,
    Wait100Continue, WroteRequest;
  unfold bind, ret, this, gtime_Now, gtime_Sub, set_RemoteAddr,
    set_ConnectStartTime, UpDownCounter_Add, Histogram_Record, delegate,
    app1, app2, app3, option_map.

(** Split on whether the wrapped tracer is there and has hook [h]. *)
Ltac split_delegate w h :=
  let d := fresh "d" in
  destruct (ClientTrace (self w)) as [d|]; [destruct (h d)|].

(** ** C1: GotConn *)

(** C1. [GotConn] with [Reused] true updates no instrument, whatever
    [WasIdle] is.  With [Reused] false and the gauge [g] at hand it adds 1 to
    the gauge for the active state under the request's context and label
    set, then, when [WasIdle] is true, adds -1 for the idle state; these are
    all its instrument updates. *)
Theorem GotConn_gauge (mm : localMetricManager) (info : httptrace.GotConnInfo)
    (w : World) :
  (httptrace.Reused info = true ->
   metrics (emitted (GotConn mm info w)) = []) /\
  (forall g : UpDownCounter,
     HttpClientOpenConnections mm = Some g ->
     httptrace.Reused info = false ->
     metrics (emitted (GotConn mm info w)) =
       EAdd g (Context (Request (self w))) 1
         (GetMetricOptionForOpenConnectionsByMap connectionStateActive
            (GetMetricAttributeMap mm (Request (self w))))
       :: (if httptrace.WasIdle info
           then [EAdd g (Context (Request (self w))) (-1)
                   (GetMetricOptionForOpenConnectionsByMap connectionStateIdle
                      (GetMetricAttributeMap mm (Request (self w))))]
           else [])).
Proof.
  split.
  - intros Hr. unfold_hook. rewrite Hr. cbn.
    split_delegate w (@httptrace.GotConn Ext); reflexivity.
  - intros g Hg Hr. unfold_hook. rewrite Hr, Hg. cbn.
    destruct (httptrace.WasIdle info); cbn;
      split_delegate w (@httptrace.GotConn Ext); reflexivity.
Qed.

Lemma GotConn_gauge_witness :
  metrics (emitted (GotConn manager info_reused_idle world0)) = [] /\
  metrics (emitted (GotConn manager info_idle_not_reused world0)) =
    [EAdd openConnections (contextOf 7) 1
       (GetMetricOptionForOpenConnectionsByMap connectionStateActive
          (labels request0));
     EAdd openConnections (contextOf 7) (-1)
       (GetMetricOptionForOpenConnectionsByMap connectionStateIdle
          (labels request0))].
Proof.
  split.
  - apply (proj1 (GotConn_gauge manager info_reused_idle world0)).
    reflexivity.
  - apply (proj2 (GotConn_gauge manager info_idle_not_reused world0)
             openConnections); reflexivity.
Defined.

(** ** C2: PutIdleConn *)

(** C2. With the gauge [g] at hand, [PutIdleConn err] adds -1 to the gauge
    for the active state whatever [err] is, then adds 1 for the idle state
    exactly when [err] is nil; these are all its instrument updates. *)
Theorem PutIdleConn_gauge (mm : localMetricManager) (err : error) (w : World)
    (g : UpDownCounter) :
  HttpClientOpenConnections mm = Some g ->
  metrics (emitted (PutIdleConn mm err w)) =
    EAdd g (Context (Request (self w))) (-1)
      (GetMetricOptionForOpenConnectionsByMap connectionStateActive
         (GetMetricAttributeMap mm (Request (self w))))
    :: match err with
       | None =>
           [EAdd g (Context (Request (self w))) 1
              (GetMetricOptionForOpenConnectionsByMap connectionStateIdle
                 (GetMetricAttributeMap mm (Request (self w))))]
       | Some _ => []
       end.
Proof.
  intros Hg. unfold_hook. rewrite Hg. cbn.
  destruct err; cbn;
    split_delegate w (@httptrace.PutIdleConn Ext); reflexivity.
Qed.

Lemma PutIdleConn_gauge_witness :
  metrics (emitted (PutIdleConn manager (Some refusal) world0)) =
    [EAdd openConnections (contextOf 7) (-1)
       (GetMetricOptionForOpenConnectionsByMap connectionStateActive
          (labels request0))].
Proof.
  apply (PutIdleConn_gauge manager (Some refusal) world0 openConnections).
  reflexivity.
Defined.

(** ** C9: Got1xxResponse *)

(** C9. When the wrapped tracer [d] has the hook [f], [Got1xxResponse code
    header] returns [f code header], nil or not, leaves the world as it was
    and emits nothing but the call of [f] with the same arguments: no
    instrument update and no write. *)
Theorem Got1xxResponse_verbatim (code : Z) (header : MIMEHeader) (w : World)
    (d : httptrace.ClientTrace Ext) (f : Z -> MIMEHeader -> error) :
  ClientTrace (self w) = Some d ->
  httptrace.Got1xxResponse d = Some f ->
  Got1xxResponse code header w =
    mkResult (Some (f code header)) w [EDelegate (CGot1xxResponse code header)].
Proof.
  intros Hd Hf. unfold Got1xxResponse.
  apply (delegate_set _ _ w d); [exact Hd|].
  unfold app2. rewrite Hf. reflexivity.
Qed.

Lemma Got1xxResponse_verbatim_witness :
  Got1xxResponse 103 [] world_strict =
    mkResult (Some (Some refusal)) world_strict
      [EDelegate (CGot1xxResponse 103 [])].
Proof.
  apply (Got1xxResponse_verbatim 103 [] world_strict strict
           (fun code _ => if Z.eqb code 100 then None else Some refusal));
    reflexivity.
Defined.

(** ** What a hook leaves alone *)

(** Case analysis on everything a hook branches on: the instrument handles,
    the flags of the connection, the wrapped tracer and its hook, the stored
    timestamp and address. *)
Ltac split_hook :=
  repeat (cbn;
    match goal with
    | |- context [HttpClientOpenConnections ?m] =>
        destruct (HttpClientOpenConnections m) eqn:?
    | |- context [HttpClientConnectionDuration ?m] =>
        destruct (HttpClientConnectionDuration m) eqn:?
    | |- context [httptrace.Reused ?i] => destruct (httptrace.Reused i) eqn:?
    | |- context [httptrace.WasIdle ?i] => destruct (httptrace.WasIdle i) eqn:?
    | |- context [String.eqb (RemoteAddr (Request (self ?w))) EmptyString] =>
        is_var w;
        destruct (String.eqb (RemoteAddr (Request (self w))) EmptyString) eqn:?
    | |- context [match ConnectStartTime (self ?w) with _ => _ end] =>
        is_var w; destruct (ConnectStartTime (self w)) eqn:?
    | |- context [match ClientTrace (self ?w) with _ => _ end] =>
        is_var w; destruct (ClientTrace (self w)) eqn:?
    | |- context [match ?x with _ => _ end] => is_var x; destruct x eqn:?
    | |- context [match ?f ?d with _ => _ end] =>
        is_var d; destruct (f d) eqn:?
    end); cbn.

Section Frames.

Variable mm : localMetricManager.
Variable sn : option Duration.
Variable req : http_Request.
Variable base : option (httptrace.ClientTrace Ext).

Local Abbreviation entry := (snd (newClientTracerMetrics mm sn req base)).

(** No hook touches the clock. *)
Lemma fire_clock (c : Call) (w : World) :
  clock (final (fire entry c w)) = clock w.
Proof.
  destruct c; cbn; unfold void; cbn; unfold_hook; cbn;
    split_hook; congruence.
Qed.

(** No hook replaces the wrapped tracer. *)
Lemma fire_ClientTrace (c : Call) (w : World) :
  ClientTrace (self (final (fire entry c w))) = ClientTrace (self w).
Proof.
  destruct c; cbn; unfold void; cbn; unfold_hook; cbn;
    split_hook; congruence.
Qed.

(** Only [ConnectStart] changes the tracer object. *)
Lemma fire_self (c : Call) (w : World) :
  is_ConnectStart c = false ->
  self (final (fire entry c w)) = self w.
Proof.
  destruct c; cbn; try discriminate; intros _; unfold void; cbn;
    unfold_hook; cbn; split_hook; congruence.
Qed.

(** [ConnectStart] stores the current time, before it calls the wrapped
    tracer and so even when that call panics. *)
Lemma fire_ConnectStart_time (network addr : string) (w : World) :
  ConnectStartTime (self (final (fire entry (CConnectStart network addr) w)))
  = Some (clock w).
Proof.
  cbn; unfold void; cbn; unfold_hook; cbn; split_hook; congruence.
Qed.

(** [ConnectStart] writes [RemoteAddr] only when it is empty. *)
Lemma fire_ConnectStart_addr (network addr : string) (w : World) :
  RemoteAddr (Request (self (final (fire entry (CConnectStart network addr) w))))
  = if String.eqb (RemoteAddr (Request (self w))) EmptyString
    then addr else RemoteAddr (Request (self w)).
Proof.
  cbn; unfold void; cbn; unfold_hook; cbn; split_hook; congruence.
Qed.

End Frames.

(** ** Runs of the transport *)

Section Runs.

Variable mm : localMetricManager.
Variable sn : option Duration.
Variable req : http_Request.
Variable base : option (httptrace.ClientTrace Ext).

Local Abbreviation entry := (snd (newClientTracerMetrics mm sn req base)).

(** One step of a run. *)
Lemma run_calls_cons (now : Time) (c : Call) (rest : list (Time * Call))
    (w : World) :
  run_calls entry ((now, c) :: rest) w =
    let r := fire entry c {| self := self w; clock := now |} in
    match value r with
    | None => mkResult None (final r) (emitted r)
    | Some _ =>
        let r' := run_calls entry rest (final r) in
        mkResult (value r') (final r') (emitted r ++ emitted r')
    end.
Proof.
  cbn [run_calls]. unfold bind. cbn [at_time value final emitted app].
  destruct (value (fire entry c {| self := self w; clock := now |}));
    reflexivity.
Qed.

(** After a run that did not panic the stored timestamp is the time of its
    last [ConnectStart]. *)
Lemma run_calls_last_start (cs : list (Time * Call)) :
  forall w : World,
    value (run_calls entry cs w) <> None ->
    ConnectStartTime (self (final (run_calls entry cs w)))
    = last_start cs (ConnectStartTime (self w)).
Proof.
  induction cs as [|[now c] rest IH]; intros w Hv.
  - reflexivity.
  - rewrite run_calls_cons in Hv |- *. cbn zeta in Hv |- *.
    destruct (value (fire entry c {| self := self w; clock := now |}))
      eqn:Hc; cbn [value final] in Hv |- *; [|congruence].
    rewrite (IH _ Hv). cbn [last_start]. f_equal.
    destruct (is_ConnectStart c) eqn:Hs.
    + destruct c; try discriminate.
      rewrite fire_ConnectStart_time. reflexivity.
    + rewrite (fire_self mm sn req base c _ Hs). reflexivity.
Qed.

(** Once the address is set, no run changes it, panic or not. *)
Lemma run_calls_addr_kept (cs : list (Time * Call)) :
  forall w : World,
    RemoteAddr (Request (self w)) <> EmptyString ->
    RemoteAddr (Request (self (final (run_calls entry cs w))))
    = RemoteAddr (Request (self w)).
Proof.
  induction cs as [|[now c] rest IH]; intros w Hne.
  - reflexivity.
  - rewrite run_calls_cons. cbn zeta.
    assert (Hstep :
      RemoteAddr (Request (self (final
        (fire entry c {| self := self w; clock := now |}))))
      = RemoteAddr (Request (self w))).
    { destruct (is_ConnectStart c) eqn:Hs.
      - destruct c; try discriminate.
      rewrite fire_ConnectStart_addr. cbn [self].
        destruct (String.eqb_spec (RemoteAddr (Request (self w))) EmptyString);
          [contradiction|reflexivity].
      - rewrite (fire_self mm sn req base c _ Hs).
        reflexivity. }
    destruct (value (fire entry c {| self := self w; clock := now |}));
      cbn [final].
    + rewrite IH; [exact Hstep|]. rewrite Hstep. exact Hne.
    + exact Hstep.
Qed.

(** After a run that did not panic the address is the first one that is
    not empty among the initial one and those of the [ConnectStart]
    calls. *)
Lemma run_calls_first_addr (cs : list (Time * Call)) :
  forall w : World,
    value (run_calls entry cs w) <> None ->
    RemoteAddr (Request (self (final (run_calls entry cs w))))
    = first_addr cs (RemoteAddr (Request (self w))).
Proof.
  induction cs as [|[now c] rest IH]; intros w Hv.
  - reflexivity.
  - rewrite run_calls_cons in Hv |- *. cbn zeta in Hv |- *.
    destruct (value (fire entry c {| self := self w; clock := now |}))
      eqn:Hc; cbn [value final] in Hv |- *; [|congruence].
    rewrite (IH _ Hv).
    destruct (is_ConnectStart c) eqn:Hs.
    + destruct c; try discriminate.
      rewrite fire_ConnectStart_addr. reflexivity.
    + rewrite (fire_self mm sn req base c _ Hs).
      destruct c; try discriminate; reflexivity.
Qed.

End Runs.

(** ** C3: the connect-duration histogram *)

(** The millisecond count of an int64 duration converts to a float64 without
    rounding: it lies strictly between -2^53 and 2^53. *)
Lemma Milliseconds_exact (d : Duration) :
  - 2 ^ 63 <= d < 2 ^ 63 ->
  - 2 ^ 53 < Milliseconds d < 2 ^ 53.
Proof.
  intros [Hlo Hhi]. unfold Milliseconds.
  assert (H1 : Z.quot d 1000000 <= Z.quot (2 ^ 63) 1000000)
    by (apply Z.quot_le_mono; lia).
  assert (H2 : Z.quot (- 2 ^ 63) 1000000 <= Z.quot d 1000000)
    by (apply Z.quot_le_mono; lia).
  change (Z.quot (2 ^ 63) 1000000) with 9223372036854 in H1.
  change (Z.quot (- 2 ^ 63) 1000000) with (-9223372036854) in H2.
  change (2 ^ 53) with 9007199254740992. lia.
Qed.

(** C3. [ConnectStart] updates no instrument.  With the histogram [h] at
    hand and a stored timestamp [t0], [ConnectDone] records exactly one
    observation, whatever [err] is: the milliseconds elapsed since [t0], under
    the request's labels, and it updates nothing else.  After a run whose last
    [ConnectStart] was at [t2], a [ConnectDone] at [t3] records the
    milliseconds from [t2] to [t3]. *)
Theorem ConnectDone_histogram (mm : localMetricManager) (sn : option Duration)
    (req : http_Request) (base : option (httptrace.ClientTrace Ext)) :
  (forall (network addr : string) (w : World),
     metrics (emitted (ConnectStart network addr w)) = []) /\
  (forall (h : Histogram) (t0 : Time) (network addr : string) (err : error)
          (w : World),
     HttpClientConnectionDuration mm = Some h ->
     ConnectStartTime (self w) = Some t0 ->
     metrics (emitted (ConnectDone mm sn network addr err w)) =
       [ERecord h (Milliseconds (clock w - t0))
          (GetMetricOptionForConnectionDuration mm (Request (self w)))]) /\
  (forall (h : Histogram) (cs : list (Time * Call)) (t2 t3 : Time)
          (network addr : string) (err : error) (w : World),
     HttpClientConnectionDuration mm = Some h ->
     value (run_calls (snd (newClientTracerMetrics mm sn req base)) cs w)
       <> None ->
     last_start cs (ConnectStartTime (self w)) = Some t2 ->
     let w' :=
       final (run_calls (snd (newClientTracerMetrics mm sn req base)) cs w) in
     metrics (emitted
       (fire (snd (newClientTracerMetrics mm sn req base))
          (CConnectDone network addr err)
          {| self := self w'; clock := t3 |})) =
       [ERecord h (Milliseconds (t3 - t2))
          (GetMetricOptionForConnectionDuration mm (Request (self w')))]).
Proof.
  assert (Hdone :
    forall (h : Histogram) (t0 : Time) (network addr : string) (err : error)
           (w : World),
      HttpClientConnectionDuration mm = Some h ->
      ConnectStartTime (self w) = Some t0 ->
      metrics (emitted (ConnectDone mm sn network addr err w)) =
        [ERecord h (Milliseconds (clock w - t0))
           (GetMetricOptionForConnectionDuration mm (Request (self w)))]).
  { intros h t0 network addr err w Hh Ht. unfold_hook. cbn.
    rewrite Ht. cbn. rewrite Hh. cbn.
    split_delegate w (@httptrace.ConnectDone Ext); reflexivity. }
  split; [|split].
  - intros network addr w. unfold_hook. cbn.
    destruct (String.eqb (RemoteAddr (Request (self w))) EmptyString); cbn;
      split_delegate w (@httptrace.ConnectStart Ext); reflexivity.
  - exact Hdone.
  - intros h cs t2 t3 network addr err w Hh Hv Hl w'.
    pose proof (run_calls_last_start mm sn req base cs w Hv) as Hs.
    rewrite Hl in Hs. fold w' in Hs.
    pose proof (Hdone h t2 network addr err
                  {| self := self w'; clock := t3 |} Hh Hs) as Hd.
    cbn [self clock] in Hd. rewrite <- Hd.
    change (fire (snd (newClientTracerMetrics mm sn req base))
              (CConnectDone network addr err)
              {| self := self w'; clock := t3 |})
      with (void (Some (ConnectDone mm sn network addr err))
              {| self := self w'; clock := t3 |}).
    rewrite void_emitted. reflexivity.
Qed.

Lemma ConnectDone_histogram_witness :
  metrics (emitted
    (ConnectDone manager None "tcp" "1.2.3.4:443" (Some refusal)
       world_dialling)) =
    [ERecord connectionDuration 42
       (GetMetricOptionForConnectionDuration manager request0)] /\
  metrics (emitted
    (fire tracer0 (CConnectDone "tcp" "1.2.3.4:443" None)
       {| self := self (final (run_calls tracer0 racing_dials world0));
          clock := 47000000 |})) =
    [ERecord connectionDuration 42
       (GetMetricOptionForConnectionDuration manager
          (Request (self (final (run_calls tracer0 racing_dials world0)))))].
Proof.
  split.
  - apply (proj1 (proj2
             (ConnectDone_histogram manager None request0 (Some quiet)))
             connectionDuration 1000000 "tcp"%string "1.2.3.4:443"%string
             (Some refusal) world_dialling); reflexivity.
  - apply (proj2 (proj2
             (ConnectDone_histogram manager None request0 (Some quiet)))
             connectionDuration racing_dials 5000000 47000000
             "tcp"%string "1.2.3.4:443"%string None world0).
    + reflexivity.
    + vm_compute. discriminate.
    + reflexivity.
Defined.

(** ** C8: the request's address *)

(** C8. [ConnectStart network addr] leaves in [RemoteAddr] the given [addr]
    when the field was empty and the old value otherwise.  A field that is
    not empty survives every run unchanged.  So, starting from an empty
    field, after a [ConnectStart] with a non-empty [addr] and any calls that
    follow it, the field holds that first [addr].  In general, after a run
    that did not panic the field holds the first value that is not empty
    among its initial value and the addresses of the [ConnectStart] calls, in
    order. *)
Theorem ConnectStart_RemoteAddr (mm : localMetricManager)
    (sn : option Duration) (req : http_Request)
    (base : option (httptrace.ClientTrace Ext)) :
  (forall (network addr : string) (w : World),
     RemoteAddr (Request (self (final (ConnectStart network addr w)))) =
       if String.eqb (RemoteAddr (Request (self w))) EmptyString
       then addr else RemoteAddr (Request (self w))) /\
  (forall (cs : list (Time * Call)) (w : World),
     RemoteAddr (Request (self w)) <> EmptyString ->
     RemoteAddr (Request (self (final
       (run_calls (snd (newClientTracerMetrics mm sn req base)) cs w)))) =
       RemoteAddr (Request (self w))) /\
  (forall (now : Time) (network addr : string) (rest : list (Time * Call))
          (w : World),
     RemoteAddr (Request (self w)) = EmptyString ->
     addr <> EmptyString ->
     RemoteAddr (Request (self (final
       (run_calls (snd (newClientTracerMetrics mm sn req base))
          ((now, CConnectStart network addr) :: rest) w)))) = addr) /\
  (forall (cs : list (Time * Call)) (w : World),
     value (run_calls (snd (newClientTracerMetrics mm sn req base)) cs w)
       <> None ->
     RemoteAddr (Request (self (final
       (run_calls (snd (newClientTracerMetrics mm sn req base)) cs w)))) =
       first_addr cs (RemoteAddr (Request (self w)))).
Proof.
  split; [|split; [|split]]; [| | |apply run_calls_first_addr].
  - intros network addr w.
    pose proof (fire_ConnectStart_addr mm sn req base network addr w) as H.
    change (fire (snd (newClientTracerMetrics mm sn req base))
              (CConnectStart network addr) w)
      with (void (Some (ConnectStart network addr)) w) in H.
    rewrite void_final in H. exact H.
  - intros cs w Hne. apply run_calls_addr_kept. exact Hne.
  - intros now network addr rest w Hempty Haddr.
    rewrite run_calls_cons. cbn zeta.
    assert (Hstep :
      RemoteAddr (Request (self (final
        (fire (snd (newClientTracerMetrics mm sn req base))
           (CConnectStart network addr)
           {| self := self w; clock := now |})))) = addr).
    { rewrite fire_ConnectStart_addr. cbn [self]. rewrite Hempty.
      reflexivity. }
    destruct (value (fire (snd (newClientTracerMetrics mm sn req base))
                (CConnectStart network addr)
                {| self := self w; clock := now |})); cbn [final].
    + rewrite run_calls_addr_kept; [exact Hstep|].
      rewrite Hstep. exact Haddr.
    + exact Hstep.
Qed.

Lemma ConnectStart_RemoteAddr_witness :
  RemoteAddr (Request (self (final
    (run_calls tracer0
       [(5000000, CConnectStart "tcp" "1.2.3.4:443")]
       (final (run_calls tracer0
                 [(0, CConnectStart "tcp" "[2001:db8::1]:443")] world0))))))
    = "[2001:db8::1]:443"%string /\
  RemoteAddr (Request (self (final (run_calls tracer0 racing_dials world0))))
    = "[2001:db8::1]:443"%string /\
  RemoteAddr (Request (self (final
    (run_calls tracer0
       [(0, CGetConn "example.org:443"); (1, CConnectStart "tcp" "");
        (2, CConnectStart "tcp" "1.2.3.4:443")] world0))))
    = "1.2.3.4:443"%string.
Proof.
  split; [|split].
  - unfold tracer0.
    rewrite (proj1 (proj2
               (ConnectStart_RemoteAddr manager None request0 (Some quiet)))
               [(5000000, CConnectStart "tcp" "1.2.3.4:443")]
               (final (run_calls
                         (snd (newClientTracerMetrics manager None request0
                                 (Some quiet)))
                         [(0, CConnectStart "tcp" "[2001:db8::1]:443")]
                         world0))).
    + reflexivity.
    + vm_compute. discriminate.
  - apply (proj1 (proj2 (proj2
             (ConnectStart_RemoteAddr manager None request0 (Some quiet))))
             0 "tcp"%string "[2001:db8::1]:443"%string
             [(5000000, CConnectStart "tcp" "1.2.3.4:443")] world0).
    + reflexivity.
    + discriminate.
  - unfold tracer0.
    rewrite (proj2 (proj2 (proj2
               (ConnectStart_RemoteAddr manager None request0 (Some quiet))))
               [(0, CGetConn "example.org:443"); (1, CConnectStart "tcp" "");
                (2, CConnectStart "tcp" "1.2.3.4:443")] world0).
    + reflexivity.
    + vm_compute. discriminate.
Defined.

(** ** C5: every call reaches the wrapped tracer once *)

(** Finish a case reached by [split_hook] in which hypotheses were moved
    into the goal. *)
Ltac close_case :=
  cbn; intros;
  try discriminate; try congruence;
  repeat split; try reflexivity; try discriminate; try congruence.

(** C5. Take the entry points the constructor returns for a wrapped tracer
    [d], and a world whose tracer object still wraps [d].  For each of the
    sixteen calls [c]: when [d] has the hook that [c] names and what [c]
    needs is at hand, firing [c] does not panic and the calls it makes to [d]
    are exactly [c] itself, once, hook and arguments. *)
Theorem entry_forwards_once (mm : localMetricManager) (sn : option Duration)
    (req : http_Request) (base : option (httptrace.ClientTrace Ext))
    (d : httptrace.ClientTrace Ext) (c : Call) (w : World) :
  base = Some d ->
  ClientTrace (self w) = base ->
  has_hook d c = true ->
  ready mm sn w c = true ->
  value (fire (snd (newClientTracerMetrics mm sn req base)) c w) <> None /\
  delegated (emitted (fire (snd (newClientTracerMetrics mm sn req base)) c w))
    = [c].
Proof.
  intros Hb Hd. subst base. revert Hd.
  destruct c; cbn; unfold void, ready, is_set; cbn; unfold_hook; cbn;
    intros Hd; rewrite ?Hd; split_hook; close_case.
Qed.

Lemma entry_forwards_once_witness :
  value (fire tracer0 (CGotConn info_idle_not_reused) world0) <> None /\
  delegated (emitted (fire tracer0 (CGotConn info_idle_not_reused) world0))
    = [CGotConn info_idle_not_reused].
Proof.
  apply (entry_forwards_once manager None request0 (Some quiet) quiet
           (CGotConn info_idle_not_reused) world0); reflexivity.
Defined.

(** ** C6: bookkeeping first *)

(** C6. For each of the sixteen calls, whatever the instruments and the
    wrapped tracer are: the effects of firing the call are the tracer's own
    effects (instrument updates, the write of the address, the write of the
    timestamp) followed by the call to the wrapped tracer, which is the last
    effect when the call returns and is absent when it panics.  No effect of
    the tracer comes after or between calls to the wrapped tracer. *)
Theorem bookkeeping_before_delegate (mm : localMetricManager)
    (sn : option Duration) (req : http_Request)
    (base : option (httptrace.ClientTrace Ext)) (c : Call) (w : World) :
  emitted (fire (snd (newClientTracerMetrics mm sn req base)) c w) =
    bookkeeping
      (emitted (fire (snd (newClientTracerMetrics mm sn req base)) c w))
    ++ match value (fire (snd (newClientTracerMetrics mm sn req base)) c w) with
       | Some _ => [EDelegate c]
       | None => []
       end.
Proof.
  destruct c; cbn; unfold void; cbn; unfold_hook; cbn;
    split_hook; reflexivity.
Qed.

(** The effects of a [ConnectStart] on a fresh tracer, in order. *)
Example ConnectStart_effects :
  emitted (fire tracer0 (CConnectStart "tcp" "1.2.3.4:443")
             {| self := self world0; clock := 9 |}) =
    [ESetRemoteAddr "1.2.3.4:443"; ESetConnectStartTime 9;
     EDelegate (CConnectStart "tcp" "1.2.3.4:443")].
Proof. reflexivity. Qed.

(** The effects of taking a connection from the idle pool that is reported
    as not reused. *)
Example GotConn_effects :
  emitted (fire tracer0 (CGotConn info_idle_not_reused) world0) =
    [EAdd openConnections (contextOf 7) 1
       (GetMetricOptionForOpenConnectionsByMap connectionStateActive
          (labels request0));
     EAdd openConnections (contextOf 7) (-1)
       (GetMetricOptionForOpenConnectionsByMap connectionStateIdle
          (labels request0));
     EDelegate (CGotConn info_idle_not_reused)].
Proof. reflexivity. Qed.

(** A new connection handed out and then returned to the idle pool: active
    +1, then active -1 and idle +1. *)
Example new_then_idle :
  metrics (emitted
    (run_calls tracer0 [(0, CGotConn info_new); (10, CPutIdleConn None)]
       world0)) =
    [EAdd openConnections (contextOf 7) 1
       (GetMetricOptionForOpenConnectionsByMap connectionStateActive
          (labels request0));
     EAdd openConnections (contextOf 7) (-1)
       (GetMetricOptionForOpenConnectionsByMap connectionStateActive
          (labels request0));
     EAdd openConnections (contextOf 7) 1
       (GetMetricOptionForOpenConnectionsByMap connectionStateIdle
          (labels request0))].
Proof. reflexivity. Qed.

(** ** C7: a missing instrument *)

(** C7, as stated, fails: with a nil gauge handle, [GotConn] for a new
    connection panics; it is not a no-op. *)
Lemma nil_gauge_not_absorbed :
  HttpClientOpenConnections manager_no_gauge = None /\
  ~ degrades_to_no_op
      (snd (newClientTracerMetrics manager_no_gauge None request0 (Some quiet)))
      (CGotConn info_new) world0.
Proof.
  split; [reflexivity|].
  intros [Hv _]. apply Hv. reflexivity.
Qed.

(** C7, amended.  With the hook of the wrapped tracer set: a call that has
    what it needs at hand does not panic; a call that lacks it (the gauge for
    a [GotConn] with [Reused] false or a [PutIdleConn], the histogram or an
    elapsed time for a [ConnectDone]) panics before it has any effect, the
    call to the wrapped tracer included; every other call touches no
    instrument and returns, whatever the handles are. *)
Theorem missing_instrument_panics (mm : localMetricManager)
    (sn : option Duration) (req : http_Request)
    (base : option (httptrace.ClientTrace Ext))
    (d : httptrace.ClientTrace Ext) (c : Call) (w : World) :
  ClientTrace (self w) = Some d ->
  has_hook d c = true ->
  (ready mm sn w c = true ->
   value (fire (snd (newClientTracerMetrics mm sn req base)) c w) <> None) /\
  (ready mm sn w c = false ->
   value (fire (snd (newClientTracerMetrics mm sn req base)) c w) = None /\
   emitted (fire (snd (newClientTracerMetrics mm sn req base)) c w) = []) /\
  (uses_gauge c = false -> uses_histogram c = false ->
   value (fire (snd (newClientTracerMetrics mm sn req base)) c w) <> None /\
   metrics (emitted (fire (snd (newClientTracerMetrics mm sn req base)) c w))
     = []).
Proof.
  destruct c; cbn; unfold void, ready, is_set; cbn; unfold_hook; cbn;
    intros Hd; rewrite ?Hd; split_hook; close_case.
Qed.

Lemma missing_instrument_panics_witness :
  value (fire tracer0 (CPutIdleConn None) world0) <> None /\
  (value (fire
     (snd (newClientTracerMetrics manager_no_histogram None request0
             (Some quiet)))
     (CConnectDone "tcp" "1.2.3.4:443" None) world_dialling) = None /\
   emitted (fire
     (snd (newClientTracerMetrics manager_no_histogram None request0
             (Some quiet)))
     (CConnectDone "tcp" "1.2.3.4:443" None) world_dialling) = []) /\
  (value (fire
     (snd (newClientTracerMetrics manager_no_gauge None request0
             (Some quiet)))
     (CGotConn info_reused) world0) <> None /\
   metrics (emitted (fire
     (snd (newClientTracerMetrics manager_no_gauge None request0
             (Some quiet)))
     (CGotConn info_reused) world0)) = []).
Proof.
  split; [|split].
  - apply (proj1
             (missing_instrument_panics manager None request0 (Some quiet)
                quiet (CPutIdleConn None) world0 eq_refl eq_refl)).
    reflexivity.
  - apply (proj1 (proj2
             (missing_instrument_panics manager_no_histogram None request0
                (Some quiet) quiet (CConnectDone "tcp" "1.2.3.4:443" None)
                world_dialling eq_refl eq_refl))).
    reflexivity.
  - apply (proj2 (proj2
             (missing_instrument_panics manager_no_gauge None request0
                (Some quiet) quiet (CGotConn info_reused) world0
                eq_refl eq_refl))); reflexivity.
Defined.

(** ** C4: the active gauge over a connection's life *)

Lemma net_app (s : connectionState) (es1 es2 : list Event) :
  net s (es1 ++ es2) = net s es1 + net s es2.
Proof.
  unfold net. induction es1 as [|e es1 IH]; cbn; [reflexivity|].
  rewrite IH. lia.
Qed.

Section Gauge.

Variable mm : localMetricManager.
Variable sn : option Duration.
Variable req : http_Request.
Variable base : option (httptrace.ClientTrace Ext).
Variable g : UpDownCounter.
Hypothesis gauge_set : HttpClientOpenConnections mm = Some g.

Local Abbreviation entry := (snd (newClientTracerMetrics mm sn req base)).

(** What one call adds to the active gauge: 1 for a [GotConn] that reports
    the connection as not reused, -1 for a [PutIdleConn], nothing for any
    other call. *)
Lemma fire_net_active (c : Call) (w : World) :
  net connectionStateActive (emitted (fire entry c w)) =
    match c with
    | CGotConn info => if httptrace.Reused info then 0 else 1
    | CPutIdleConn _ => -1
    | _ => 0
    end.
Proof.
  destruct c; cbn; unfold void; cbn; unfold_hook; cbn;
    rewrite ?gauge_set; split_hook; reflexivity.
Qed.

(** Over a run that did not panic, the active gauge moved by the number of
    [GotConn] calls reporting a connection as not reused minus the number
    of [PutIdleConn] calls. *)
Lemma run_calls_net_active (cs : list (Time * Call)) :
  forall w : World,
    value (run_calls entry cs w) <> None ->
    net connectionStateActive (emitted (run_calls entry cs w)) =
      count_not_reused cs - count_put_idle cs.
Proof.
  pose proof fire_net_active as Hfire.
  induction cs as [|[now c] rest IH]; intros w Hv.
  - reflexivity.
  - rewrite run_calls_cons in Hv |- *. cbn zeta in Hv |- *.
    destruct (value (fire (snd (newClientTracerMetrics mm sn req base)) c
                       {| self := self w; clock := now |}));
      cbn [value emitted] in Hv |- *; [|congruence].
    rewrite net_app, (IH _ Hv), Hfire.
    destruct c; cbn [count_not_reused count_put_idle]; lia.
Qed.

(** With the gauge at hand and the two hooks of the wrapped tracer set, a
    run of [GotConn] and [PutIdleConn] calls does not panic. *)
Lemma run_calls_conn_returns (d : httptrace.ClientTrace Ext)
    (cs : list (Time * Call)) :
  is_set (httptrace.GotConn d) = true ->
  is_set (httptrace.PutIdleConn d) = true ->
  forallb (fun p => conn_call (snd p)) cs = true ->
  forall w : World,
    ClientTrace (self w) = Some d ->
    value (run_calls entry cs w) <> None.
Proof.
  intros Hg Hp.
  induction cs as [|[now c] rest IH]; intros Hall w Hd.
  - discriminate.
  - cbn [forallb snd] in Hall. apply andb_prop in Hall as [Hc Hrest].
    rewrite run_calls_cons. cbn zeta.
    assert (Hstep :
      value (fire (snd (newClientTracerMetrics mm sn req base)) c
               {| self := self w; clock := now |}) <> None).
    { clear IH. revert Hg Hp. unfold is_set.
      destruct c; try discriminate; cbn; unfold void; cbn; unfold_hook;
        cbn; rewrite ?gauge_set, ?Hd; split_hook; close_case. }
    destruct (value (fire (snd (newClientTracerMetrics mm sn req base)) c
                       {| self := self w; clock := now |}))
      eqn:Hc'; [|congruence].
    cbn [value]. apply IH; [exact Hrest|].
    rewrite fire_ClientTrace. exact Hd.
Qed.

End Gauge.

(** Lives are built by four rules. *)
Lemma life_from_ind (reuse : httptrace.GotConnInfo -> bool)
    (P : (httptrace.GotConnInfo -> bool) -> list (Time * Call) -> Prop) :
  (forall got, P got []) ->
  (forall got t info, got info = true -> P got [(t, CGotConn info)]) ->
  (forall got t info t' e,
     got info = true ->
     P got [(t, CGotConn info); (t', CPutIdleConn (Some e))]) ->
  (forall got t info t' rest,
     got info = true ->
     life_from reuse reuse rest = true ->
     P reuse rest ->
     P got ((t, CGotConn info) :: (t', CPutIdleConn None) :: rest)) ->
  forall cs got, life_from reuse got cs = true -> P got cs.
Proof.
  intros Hnil Hone Herr Hstep cs.
  assert (H : forall (n : nat) (cs : list (Time * Call)) got,
             (List.length cs <= n)%nat ->
             life_from reuse got cs = true -> P got cs).
  { clear cs. induction n as [|n IH]; intros cs got Hlen Hlife.
    - destruct cs; [apply Hnil|cbn in Hlen; lia].
    - destruct cs as [|[t c] rest]; [apply Hnil|].
      destruct c; cbn in Hlife; try discriminate.
      apply andb_prop in Hlife as [Hgot Hrest].
      destruct rest as [|[t' c'] rest']; [apply Hone; exact Hgot|].
      destruct c'; try discriminate.
      destruct err as [e|].
      + destruct rest'; [apply Herr; exact Hgot|discriminate].
      + apply Hstep; [exact Hgot|exact Hrest|].
        apply IH; [cbn in Hlen; lia|exact Hrest]. }
  intros got. apply (H (List.length cs)). lia.
Qed.

(** A life is a run of [GotConn] and [PutIdleConn] calls. *)
Lemma life_from_conn_calls (reuse got : httptrace.GotConnInfo -> bool)
    (cs : list (Time * Call)) :
  life_from reuse got cs = true ->
  forallb (fun p => conn_call (snd p)) cs = true.
Proof.
  revert cs got.
  apply (life_from_ind reuse
           (fun _ cs => forallb (fun p => conn_call (snd p)) cs = true));
    intros; cbn; auto.
Qed.

(** Every prefix of a life is a life. *)
Lemma life_from_firstn (reuse got : httptrace.GotConnInfo -> bool)
    (cs : list (Time * Call)) :
  life_from reuse got cs = true ->
  forall n : nat, life_from reuse got (firstn n cs) = true.
Proof.
  revert cs got.
  apply (life_from_ind reuse
           (fun got cs => forall n, life_from reuse got (firstn n cs) = true)).
  - intros got n. destruct n; reflexivity.
  - intros got t info Hgot n. destruct n as [|[|n]]; cbn; rewrite ?Hgot;
      reflexivity.
  - intros got t info t' e Hgot n. destruct n as [|[|[|n]]]; cbn;
      rewrite ?Hgot; reflexivity.
  - intros got t info t' rest Hgot Hlife IH n.
    destruct n as [|[|n]]; cbn [firstn life_from]; rewrite ?Hgot;
      try reflexivity.
    cbn. apply IH.
Qed.

(** In a life whose every [GotConn] reports the connection as not reused,
    those calls and the [PutIdleConn] calls balance to [held]. *)
Lemma life_from_balance (reuse got : httptrace.GotConnInfo -> bool)
    (cs : list (Time * Call)) :
  (forall info, reuse info = true -> httptrace.Reused info = false) ->
  (forall info, got info = true -> httptrace.Reused info = false) ->
  life_from reuse got cs = true ->
  count_not_reused cs - count_put_idle cs = held cs.
Proof.
  intros Hreuse Hgot Hlife. revert cs got Hlife Hgot.
  apply (life_from_ind reuse
           (fun got cs =>
              (forall info, got info = true -> httptrace.Reused info = false) ->
              count_not_reused cs - count_put_idle cs = held cs)).
  - reflexivity.
  - intros got t info Hgot Hnr. cbn. rewrite (Hnr _ Hgot). reflexivity.
  - intros got t info t' e Hgot Hnr. cbn. rewrite (Hnr _ Hgot). reflexivity.
  - intros got t info t' rest Hgot Hlife IH Hnr.
    cbn [count_not_reused count_put_idle]. rewrite (Hnr _ Hgot).
    specialize (IH Hreuse).
    destruct rest as [|p rest]; [reflexivity|].
    change (held ((t, CGotConn info) :: (t', CPutIdleConn None) :: p :: rest))
      with (held (p :: rest)).
    lia.
Qed.

Lemma held_range (cs : list (Time * Call)) : 0 <= held cs <= 1.
Proof.
  induction cs as [|[t c] rest IH]; cbn; [lia|].
  destruct rest; [destruct c; lia|exact IH].
Qed.

(** When every [GotConn] of a connection's life reports it as not reused
    (new at first, taken from the idle pool afterwards), the active gauge
    follows the connection: after every prefix of the life the tracer has
    added 1 in all when the connection is with a request and 0 when it is
    not, and never a negative amount. *)
Lemma not_reused_life_active_gauge (mm : localMetricManager)
    (sn : option Duration) (req : http_Request)
    (base : option (httptrace.ClientTrace Ext)) (g : UpDownCounter)
    (d : httptrace.ClientTrace Ext) (cs : list (Time * Call)) (w : World) :
  HttpClientOpenConnections mm = Some g ->
  ClientTrace (self w) = Some d ->
  is_set (httptrace.GotConn d) = true ->
  is_set (httptrace.PutIdleConn d) = true ->
  life_from from_idle_not_reused brand_new cs = true ->
  forall n : nat,
    net connectionStateActive
      (emitted (run_calls (snd (newClientTracerMetrics mm sn req base))
                  (firstn n cs) w))
    = held (firstn n cs) /\
    0 <= held (firstn n cs).
Proof.
  intros Hg Hd Hgot Hput Hlife n.
  pose proof (life_from_firstn _ _ _ Hlife n) as Hn.
  split; [|apply held_range].
  rewrite (run_calls_net_active mm sn req base g Hg).
  - apply (life_from_balance from_idle_not_reused brand_new); [| |exact Hn].
    + intros info H. unfold from_idle_not_reused in H.
      apply andb_prop in H as [_ H]. destruct (httptrace.Reused info);
        [discriminate|reflexivity].
    + intros info H. unfold brand_new in H.
      apply andb_prop in H as [H _]. destruct (httptrace.Reused info);
        [discriminate|reflexivity].
  - apply (run_calls_conn_returns mm sn req base g Hg d); try assumption.
    apply (life_from_conn_calls _ _ _ Hn).
Qed.

(** C4.  The code on the life of one connection as the transport reports it:
    new, returned to the idle pool, taken from the pool as a reused
    connection, returned again.  The run does not panic.  After its four
    calls the tracer has added to the active gauge 1, 0, 0 and -1 in all:
    nothing is added when the connection is reused, so the gauge is 0 while
    the connection is with the second request and negative once it is back
    in the pool.  The idle gauge stands at 0, 1, 1 and 2. *)
Theorem reused_life_active_gauge :
  life_from from_idle brand_new reused_life = true /\
  value (run_calls tracer0 reused_life world0) = Some tt /\
  map (fun n =>
         net connectionStateActive
           (emitted (run_calls tracer0 (firstn n reused_life) world0)))
      [1; 2; 3; 4]%nat
    = [1; 0; 0; -1] /\
  map (fun n =>
         net connectionStateIdle
           (emitted (run_calls tracer0 (firstn n reused_life) world0)))
      [1; 2; 3; 4]%nat
    = [0; 1; 1; 2].
Proof.
  repeat split; vm_compute; reflexivity.
Qed.

(** The active gauge does not follow every life: the statement that holds
    for lives reported as not reused fails for lives in general. *)
Lemma active_gauge_not_held :
  ~ (forall cs : list (Time * Call),
       life_from from_idle brand_new cs = true ->
       forall n : nat,
         net connectionStateActive
           (emitted (run_calls tracer0 (firstn n cs) world0))
         = held (firstn n cs) /\
         0 <= net connectionStateActive
                (emitted (run_calls tracer0 (firstn n cs) world0))).
Proof.
  intros H. destruct (H reused_life eq_refl 4%nat) as [_ Hneg].
  vm_compute in Hneg. apply Hneg. reflexivity.
Qed.

(** ** The connect-start timestamp *)

(** The constructor leaves the timestamp nil. *)
Lemma newClientTracerMetrics_timestamp (mm : localMetricManager)
    (sn : option Duration) (req : http_Request)
    (base : option (httptrace.ClientTrace Ext)) :
  ConnectStartTime (fst (newClientTracerMetrics mm sn req base)) = None.
Proof. reflexivity. Qed.

(** The timestamp a call leaves: the current time after [ConnectStart], the
    one it found after any other call. *)
Lemma timestamp_set_by_ConnectStart_only (mm : localMetricManager)
    (sn : option Duration) (req : http_Request)
    (base : option (httptrace.ClientTrace Ext)) (c : Call) (w : World) :
  ConnectStartTime
    (self (final (fire (snd (newClientTracerMetrics mm sn req base)) c w)))
  = if is_ConnectStart c then Some (clock w) else ConnectStartTime (self w).
Proof.
  destruct (is_ConnectStart c) eqn:Hc.
  - destruct c; try discriminate. apply fire_ConnectStart_time.
  - rewrite (fire_self mm sn req base c w Hc). reflexivity.
Qed.

(** [ConnectDone] hands the stored timestamp to [gtime.Time.Sub] as it is.
    On a nil timestamp the outcome is that of [Sub]: when [Sub] faults
    ([sub_nil] is [None]) the call panics with no effect; when [Sub] answers
    [d], the call records [Milliseconds d]. *)
Lemma ConnectDone_nil_timestamp (mm : localMetricManager)
    (network addr : string) (err : error) (w : World) (h : Histogram) :
  HttpClientConnectionDuration mm = Some h ->
  ConnectStartTime (self w) = None ->
  (value (ConnectDone mm None network addr err w) = None /\
   emitted (ConnectDone mm None network addr err w) = []) /\
  (forall d : Duration,
     metrics (emitted (ConnectDone mm (Some d) network addr err w)) =
       [ERecord h (Milliseconds d)
          (GetMetricOptionForConnectionDuration mm (Request (self w)))]).
Proof.
  intros Hh Ht. split; [split|intros d]; unfold_hook; cbn; rewrite Ht; cbn;
    rewrite ?Hh; cbn; try reflexivity.
  split_delegate w (@httptrace.ConnectDone Ext); reflexivity.
Qed.

(** * Further properties of the tracer *)

(** ** When a hook returns *)

(** A fired call returns exactly when the tracer wraps a tracer that has the
    hook of that name and what the call needs is at hand; in every other case
    it panics.  In particular a tracer built around a nil tracer, or around
    one that leaves a hook nil, panics on that hook. *)
Theorem fire_returns_iff (mm : localMetricManager) (sn : option Duration)
    (req : http_Request) (base : option (httptrace.ClientTrace Ext))
    (c : Call) (w : World) :
  is_set (value (fire (snd (newClientTracerMetrics mm sn req base)) c w))
  = wraps_hook w c && ready mm sn w c.
Proof.
  destruct c; cbn; unfold void, ready, wraps_hook, is_set; cbn;
    unfold_hook; cbn; split_hook; unfold is_set; split_hook;
    rewrite ?andb_false_r; first [reflexivity | congruence].
Qed.

Lemma fire_returns_iff_witness :
  is_set (value (fire tracer0 (CGetConn "example.org:443") world_bare)) = false
  /\ is_set (value (fire tracer0 (CConnectDone "tcp" "1.2.3.4:443" None)
                      world0)) = false
  /\ is_set (value (fire tracer0 (CConnectDone "tcp" "1.2.3.4:443" None)
                      world_dialling)) = true.
Proof.
  unfold tracer0. split; [|split].
  - rewrite (fire_returns_iff manager None request0 (Some quiet)
               (CGetConn "example.org:443") world_bare). reflexivity.
  - rewrite (fire_returns_iff manager None request0 (Some quiet)
               (CConnectDone "tcp" "1.2.3.4:443" None) world0). reflexivity.
  - rewrite (fire_returns_iff manager None request0 (Some quiet)
               (CConnectDone "tcp" "1.2.3.4:443" None) world_dialling).
    reflexivity.
Defined.

(** ** The two gauges over a run *)

Section Accounting.

Variable mm : localMetricManager.
Variable sn : option Duration.
Variable req : http_Request.
Variable base : option (httptrace.ClientTrace Ext).
Variable g : UpDownCounter.
Hypothesis gauge_set : HttpClientOpenConnections mm = Some g.

Local Abbreviation entry := (snd (newClientTracerMetrics mm sn req base)).

(** What one call adds to the idle gauge. *)
Lemma fire_net_idle (c : Call) (w : World) :
  net connectionStateIdle (emitted (fire entry c w)) =
    match c with
    | CGotConn info => if from_idle_not_reused info then -1 else 0
    | CPutIdleConn None => 1
    | _ => 0
    end.
Proof.
  destruct c; cbn; unfold void, from_idle_not_reused; cbn; unfold_hook; cbn;
    rewrite ?gauge_set; split_hook; reflexivity.
Qed.

Lemma run_calls_net_idle (cs : list (Time * Call)) :
  forall w : World,
    value (run_calls entry cs w) <> None ->
    net connectionStateIdle (emitted (run_calls entry cs w)) =
      count_put_ok cs - count_from_idle cs.
Proof.
  pose proof fire_net_idle as Hfire.
  induction cs as [|[now c] rest IH]; intros w Hv.
  - reflexivity.
  - rewrite run_calls_cons in Hv |- *. cbn zeta in Hv |- *.
    destruct (value (fire (snd (newClientTracerMetrics mm sn req base)) c
                       {| self := self w; clock := now |}));
      cbn [value emitted] in Hv |- *; [|congruence].
    rewrite net_app, (IH _ Hv), Hfire.
    destruct c as [| info | [e|] | | | | | | | | | | | | |];
      cbn [count_put_ok count_from_idle]; try lia.
    destruct (from_idle_not_reused info); lia.
Qed.

End Accounting.

(** How the [GotConn] and [PutIdleConn] calls of a run split. *)
Lemma count_not_reused_split (cs : list (Time * Call)) :
  count_not_reused cs = count_brand_new cs + count_from_idle cs.
Proof.
  induction cs as [|[t c] rest IH]; [reflexivity|].
  destruct c; cbn [count_not_reused count_brand_new count_from_idle];
    try exact IH.
  unfold brand_new, from_idle_not_reused.
  destruct (httptrace.Reused info), (httptrace.WasIdle info);
    cbn [negb andb]; lia.
Qed.

Lemma count_put_idle_split (cs : list (Time * Call)) :
  count_put_idle cs = count_put_ok cs + count_put_failed cs.
Proof.
  induction cs as [|[t c] rest IH]; [reflexivity|].
  destruct c as [| | [e|] | | | | | | | | | | | | |];
    cbn [count_put_idle count_put_ok count_put_failed]; lia.
Qed.

(** Over a run that did not panic, with the gauge at hand, the active gauge
    has moved by the number of [GotConn] calls that report a connection as
    not reused minus the number of [PutIdleConn] calls, whatever else the run
    contains: a [GotConn] with [Reused] true is never counted, a
    [PutIdleConn] always is. *)
Theorem active_gauge_accounting (mm : localMetricManager)
    (sn : option Duration) (req : http_Request)
    (base : option (httptrace.ClientTrace Ext)) (g : UpDownCounter)
    (cs : list (Time * Call)) (w : World) :
  HttpClientOpenConnections mm = Some g ->
  value (run_calls (snd (newClientTracerMetrics mm sn req base)) cs w)
    <> None ->
  net connectionStateActive
    (emitted (run_calls (snd (newClientTracerMetrics mm sn req base)) cs w))
  = count_not_reused cs - count_put_idle cs.
Proof.
  intros Hg Hv. exact (run_calls_net_active mm sn req base g Hg cs w Hv).
Qed.

Lemma active_gauge_accounting_witness :
  net connectionStateActive (emitted (run_calls tracer0 busy_run world0)) = 1.
Proof.
  unfold tracer0.
  rewrite (active_gauge_accounting manager None request0 (Some quiet)
             openConnections busy_run world0).
  - reflexivity.
  - reflexivity.
  - vm_compute. discriminate.
Defined.

(** Over a run that did not panic, with the gauge at hand, the idle gauge
    has moved by the number of [PutIdleConn] calls with a nil error minus the
    number of [GotConn] calls that report a connection with [WasIdle] true
    and [Reused] false.  A connection reported with [Reused] true never
    lowers the idle gauge, whatever [WasIdle] says. *)
Theorem idle_gauge_accounting (mm : localMetricManager)
    (sn : option Duration) (req : http_Request)
    (base : option (httptrace.ClientTrace Ext)) (g : UpDownCounter)
    (cs : list (Time * Call)) (w : World) :
  HttpClientOpenConnections mm = Some g ->
  value (run_calls (snd (newClientTracerMetrics mm sn req base)) cs w)
    <> None ->
  net connectionStateIdle
    (emitted (run_calls (snd (newClientTracerMetrics mm sn req base)) cs w))
  = count_put_ok cs - count_from_idle cs.
Proof.
  intros Hg Hv. exact (run_calls_net_idle mm sn req base g Hg cs w Hv).
Qed.

Lemma idle_gauge_accounting_witness :
  net connectionStateIdle (emitted (run_calls tracer0 busy_run world0)) = 0.
Proof.
  unfold tracer0.
  rewrite (idle_gauge_accounting manager None request0 (Some quiet)
             openConnections busy_run world0).
  - reflexivity.
  - reflexivity.
  - vm_compute. discriminate.
Defined.

(** The two states together: over a run that did not panic, the sum of what
    was added for the active and for the idle state is the number of
    connections reported as newly dialled minus the number of returns to the
    idle pool that failed.  Moves between the two states cancel. *)
Theorem open_connections_total (mm : localMetricManager)
    (sn : option Duration) (req : http_Request)
    (base : option (httptrace.ClientTrace Ext)) (g : UpDownCounter)
    (cs : list (Time * Call)) (w : World) :
  HttpClientOpenConnections mm = Some g ->
  value (run_calls (snd (newClientTracerMetrics mm sn req base)) cs w)
    <> None ->
  net connectionStateActive
    (emitted (run_calls (snd (newClientTracerMetrics mm sn req base)) cs w))
  + net connectionStateIdle
      (emitted (run_calls (snd (newClientTracerMetrics mm sn req base)) cs w))
  = count_brand_new cs - count_put_failed cs.
Proof.
  intros Hg Hv.
  rewrite (run_calls_net_active mm sn req base g Hg cs w Hv).
  rewrite (run_calls_net_idle mm sn req base g Hg cs w Hv).
  rewrite count_not_reused_split, count_put_idle_split. lia.
Qed.

Lemma open_connections_total_witness :
  net connectionStateActive (emitted (run_calls tracer0 busy_run world0))
  + net connectionStateIdle (emitted (run_calls tracer0 busy_run world0)) = 1.
Proof.
  unfold tracer0.
  rewrite (open_connections_total manager None request0 (Some quiet)
             openConnections busy_run world0).
  - reflexivity.
  - reflexivity.
  - vm_compute. discriminate.
Defined.

Lemma not_reused_life_active_gauge_witness :
  net connectionStateActive
    (emitted (run_calls tracer0 (firstn 5 fresh_life) world0))
  = held (firstn 5 fresh_life) /\
  0 <= held (firstn 5 fresh_life).
Proof.
  apply (not_reused_life_active_gauge manager None request0 (Some quiet)
           openConnections quiet fresh_life world0); reflexivity.
Defined.

(** ** What a run leaves of the tracer and the request *)

Lemma with_RemoteAddr_same (r : http_Request) :
  with_RemoteAddr r (RemoteAddr r) = r.
Proof. destruct r; reflexivity. Qed.

Section Preserved.

Variable mm : localMetricManager.
Variable sn : option Duration.
Variable req : http_Request.
Variable base : option (httptrace.ClientTrace Ext).

Local Abbreviation entry := (snd (newClientTracerMetrics mm sn req base)).

(** One call changes of the request at most its [RemoteAddr]. *)
Lemma fire_Request (c : Call) (w : World) :
  Request (self (final (fire entry c w))) =
    with_RemoteAddr (Request (self w))
      (RemoteAddr (Request (self (final (fire entry c w))))).
Proof.
  destruct (is_ConnectStart c) eqn:Hc.
  - destruct c; try discriminate.
    cbn; unfold void; cbn; unfold_hook; cbn; split_hook;
      first [reflexivity | symmetry; apply with_RemoteAddr_same].
  - rewrite (fire_self mm sn req base c w Hc).
    symmetry. apply with_RemoteAddr_same.
Qed.

(** Over a run, panic or not, the request changes at most in its
    [RemoteAddr] and the wrapped tracer stays the one given. *)
Lemma run_calls_Request (cs : list (Time * Call)) :
  forall w : World,
    Request (self (final (run_calls entry cs w))) =
      with_RemoteAddr (Request (self w))
        (RemoteAddr (Request (self (final (run_calls entry cs w))))) /\
    ClientTrace (self (final (run_calls entry cs w))) = ClientTrace (self w).
Proof.
  induction cs as [|[now c] rest IH]; intros w.
  - split; [symmetry; apply with_RemoteAddr_same|reflexivity].
  - rewrite run_calls_cons. cbn zeta.
    pose proof (fire_Request c {| self := self w; clock := now |}) as Hr.
    pose proof (fire_ClientTrace mm sn req base c
                  {| self := self w; clock := now |}) as Hd.
    cbn [self] in Hr, Hd.
    destruct (value (fire (snd (newClientTracerMetrics mm sn req base)) c
                       {| self := self w; clock := now |})); cbn [final].
    + destruct (IH (final (fire (snd (newClientTracerMetrics mm sn req base))
                             c {| self := self w; clock := now |})))
        as [IHr IHd].
      split; [|rewrite IHd; exact Hd].
      rewrite IHr. rewrite Hr. reflexivity.
    + split; [exact Hr|exact Hd].
Qed.

(** A run without [ConnectStart] leaves the timestamp as it found it. *)
Lemma run_calls_timestamp_kept (cs : list (Time * Call)) :
  has_ConnectStart cs = false ->
  forall w : World,
    ConnectStartTime (self (final (run_calls entry cs w)))
    = ConnectStartTime (self w).
Proof.
  unfold has_ConnectStart.
  induction cs as [|[now c] rest IH]; intros Hno w.
  - reflexivity.
  - cbn [existsb snd] in Hno. apply orb_false_elim in Hno as [Hc Hrest].
    rewrite run_calls_cons. cbn zeta.
    pose proof (fire_self mm sn req base c
                  {| self := self w; clock := now |} Hc) as Hs.
    cbn [self] in Hs.
    destruct (value (fire (snd (newClientTracerMetrics mm sn req base)) c
                       {| self := self w; clock := now |})); cbn [final].
    + rewrite (IH Hrest). rewrite Hs. reflexivity.
    + rewrite Hs. reflexivity.
Qed.

(** The updates of one call carry the label set and the context of the
    request as the call found it. *)
Lemma fire_attributed (c : Call) (w : World) :
  Forall (attributed (GetMetricAttributeMap mm (Request (self w)))
            (Context (Request (self w))))
    (emitted (fire entry c w)).
Proof.
  destruct c; cbn; unfold void; cbn; unfold_hook; cbn; split_hook;
    repeat constructor.
Qed.

End Preserved.

(** A tracer never changes its request beyond [RemoteAddr], and never
    replaces the tracer it wraps: after any run, panic or not, the request
    is the one the run started with but for that field, and the wrapped
    tracer is the same. *)
Theorem request_preserved (mm : localMetricManager) (sn : option Duration)
    (req : http_Request) (base : option (httptrace.ClientTrace Ext))
    (cs : list (Time * Call)) (w : World) :
  Request (self (final
    (run_calls (snd (newClientTracerMetrics mm sn req base)) cs w))) =
    with_RemoteAddr (Request (self w))
      (RemoteAddr (Request (self (final
         (run_calls (snd (newClientTracerMetrics mm sn req base)) cs w))))) /\
  ClientTrace (self (final
    (run_calls (snd (newClientTracerMetrics mm sn req base)) cs w))) =
    ClientTrace (self w).
Proof.
  apply run_calls_Request.
Qed.

(** The timestamp of a tracer is nil from its construction until the first
    [ConnectStart]: after any run without a [ConnectStart] on a newly built
    tracer, panic or not, it is still nil. *)
Theorem timestamp_nil_until_ConnectStart (mm : localMetricManager)
    (sn : option Duration) (req : http_Request)
    (base : option (httptrace.ClientTrace Ext))
    (cs : list (Time * Call)) (now : Time) :
  has_ConnectStart cs = false ->
  ConnectStartTime (self (final
    (run_calls (snd (newClientTracerMetrics mm sn req base)) cs
       {| self := fst (newClientTracerMetrics mm sn req base);
          clock := now |}))) = None.
Proof.
  intros Hno. rewrite (run_calls_timestamp_kept mm sn req base cs Hno).
  reflexivity.
Qed.

Lemma timestamp_nil_until_ConnectStart_witness :
  ConnectStartTime (self (final
    (run_calls tracer0
       [(0, CGetConn "example.org:443"); (1, CGotConn info_reused);
        (2, CConnectDone "tcp" "1.2.3.4:443" None)] world0))) = None.
Proof.
  apply (timestamp_nil_until_ConnectStart manager None request0 (Some quiet)
           [(0, CGetConn "example.org:443"); (1, CGotConn info_reused);
            (2, CConnectDone "tcp" "1.2.3.4:443" None)] 0).
  reflexivity.
Defined.

(** When the label set of a request does not depend on its [RemoteAddr],
    every instrument update of a run, panic or not, is made under the label
    set and the context the request had when the run began: the increments
    and the decrements of a connection fall on the same series, also across a
    [ConnectStart] that fills the address in. *)
Theorem labels_stable (mm : localMetricManager) (sn : option Duration)
    (req : http_Request) (base : option (httptrace.ClientTrace Ext))
    (cs : list (Time * Call)) (w : World) :
  (forall (r : http_Request) (addr : string),
     GetMetricAttributeMap mm (with_RemoteAddr r addr)
     = GetMetricAttributeMap mm r) ->
  Forall (attributed (GetMetricAttributeMap mm (Request (self w)))
            (Context (Request (self w))))
    (emitted (run_calls (snd (newClientTracerMetrics mm sn req base)) cs w)).
Proof.
  intros Hstable. revert w.
  induction cs as [|[now c] rest IH]; intros w.
  - constructor.
  - rewrite run_calls_cons. cbn zeta.
    pose proof (fire_attributed mm sn req base c
                  {| self := self w; clock := now |}) as Hc.
    pose proof (fire_Request mm sn req base c
                  {| self := self w; clock := now |}) as Hr.
    cbn [self] in Hc, Hr.
    destruct (value (fire (snd (newClientTracerMetrics mm sn req base)) c
                       {| self := self w; clock := now |}));
      cbn [emitted]; [|exact Hc].
    apply Forall_app. split; [exact Hc|].
    specialize (IH (final (fire (snd (newClientTracerMetrics mm sn req base))
                             c {| self := self w; clock := now |}))).
    rewrite Hr in IH. rewrite Hstable in IH.
    exact IH.
Qed.

Lemma labels_stable_witness :
  Forall (attributed (labels request0) (contextOf 7))
    (emitted (run_calls tracer0 busy_run world0)).
Proof.
  apply (labels_stable manager None request0 (Some quiet) busy_run world0).
  intros r addr. reflexivity.
Defined.

(** ** The value a dial records *)

(** When the clock has not gone back since the stored timestamp and the
    elapsed time fits a 64-bit duration, the value [ConnectDone] records is
    the number of whole milliseconds elapsed, rounded down: it is not
    negative, a dial shorter than a millisecond records 0, and the value is
    small enough to convert to a float64 without rounding. *)
Theorem ConnectDone_whole_milliseconds (mm : localMetricManager)
    (sn : option Duration) (network addr : string) (err : error) (w : World)
    (h : Histogram) (t0 : Time) :
  HttpClientConnectionDuration mm = Some h ->
  ConnectStartTime (self w) = Some t0 ->
  t0 <= clock w ->
  clock w - t0 < 2 ^ 63 ->
  exists v : Z,
    metrics (emitted (ConnectDone mm sn network addr err w)) =
      [ERecord h v
         (GetMetricOptionForConnectionDuration mm (Request (self w)))] /\
    0 <= v < 2 ^ 53 /\
    1000000 * v <= clock w - t0 < 1000000 * (v + 1).
Proof.
  intros Hh Ht Hle Hlt.
  exists (Milliseconds (clock w - t0)). split; [|split].
  - unfold_hook. cbn. rewrite Ht. cbn. rewrite Hh. cbn.
    split_delegate w (@httptrace.ConnectDone Ext); reflexivity.
  - pose proof (Milliseconds_exact (clock w - t0)) as Hex.
    assert (H0 : 0 <= Milliseconds (clock w - t0)).
    { unfold Milliseconds. apply Z.quot_pos; lia. }
    assert (Hr : - 2 ^ 63 <= clock w - t0 < 2 ^ 63) by lia.
    specialize (Hex Hr). lia.
  - unfold Milliseconds. rewrite Z.quot_div_nonneg by lia.
    pose proof (Z.mul_div_le (clock w - t0) 1000000) as H1.
    pose proof (Z.mul_succ_div_gt (clock w - t0) 1000000) as H2.
    lia.
Qed.

Lemma ConnectDone_whole_milliseconds_witness :
  exists v : Z,
    metrics (emitted
      (ConnectDone manager None "tcp" "1.2.3.4:443" None world_dialling)) =
      [ERecord connectionDuration v
         (GetMetricOptionForConnectionDuration manager request0)] /\
    0 <= v < 2 ^ 53 /\
    1000000 * v <= 42000000 < 1000000 * (v + 1).
Proof.
  apply (ConnectDone_whole_milliseconds manager None "tcp"%string
           "1.2.3.4:443"%string None world_dialling connectionDuration
           1000000).
  - reflexivity.
  - reflexivity.
  - vm_compute. discriminate.
  - reflexivity.
Defined.
